(** * Replay buffer of muzero-general: a shallow embedding of
      [src/replay_buffer.py] and the properties of its window store,
      target builder and batch assembler. *)

From Stdlib Require Import List ZArith QArith Lia Bool.
From Stdlib Require PrimFloat.
Import ListNotations.

Set Implicit Arguments.

Local Open Scope Z_scope.

(** ** Python results: a value or a raised exception *)

(** The exceptions the class can raise.  [ValueError_batch_size] is the
    explicit [raise ValueError] of [get_batch]; [ValueError_empty_choice] is
    what [numpy.random.choice] raises on an empty population. *)
Inductive exn : Type :=
| ValueError_batch_size
| ValueError_empty_choice
| IndexError
| ZeroDivisionError.

Inductive result (A : Type) : Type :=
| Ok (a : A)
| Raise (e : exn).

Arguments Ok {A} a.
Arguments Raise {A} e.

Definition rbind {A B} (r : result A) (k : A -> result B) : result B :=
  match r with
  | Ok a => k a
  | Raise e => Raise e
  end.

Declare Scope py_scope.
Delimit Scope py_scope with py.
Notation "'let?' x ':=' r 'in' k" := (rbind r (fun x => k))
  (at level 10, x pattern, r at level 100, k at level 200) : py_scope.
Local Open Scope py_scope.

(** ** Python sequences *)

Module Py.

(** [len(l)] *)
Definition len {A} (l : list A) : Z := Z.of_nat (length l).

(** [l[i]]: a negative index counts from the end, anything outside
    [-len, len) raises [IndexError]. *)
Definition index {A} (l : list A) (i : Z) : result A :=
  let j := if i <? 0 then i + len l else i in
  if j <? 0 then Raise IndexError
  else match nth_error l (Z.to_nat j) with
       | Some x => Ok x
       | None => Raise IndexError
       end.

(** The bound of a slice, as Python normalises it: negative bounds count
    from the end, then the bound is clamped to [0, len]. *)
Definition clamp {A} (l : list A) (i : Z) : nat :=
  let j := if i <? 0 then i + len l else i in
  Z.to_nat (Z.min (Z.max j 0) (len l)).

(** [l[a:b]] *)
Definition slice {A} (l : list A) (a b : Z) : list A :=
  firstn (clamp l b - clamp l a) (skipn (clamp l a) l).

(** [l[:]], a copy *)
Definition slice_all {A} (l : list A) : list A := l.

(** [l[::-1]], the reversed copy *)
Definition slice_rev {A} (l : list A) : list A := rev l.

(** [range(a, b)] *)
Definition range (a b : Z) : list Z :=
  map (fun k => a + Z.of_nat k) (seq 0 (Z.to_nat (b - a))).

(** [enumerate(l)] *)
Definition enumerate {A} (l : list A) : list (Z * A) :=
  combine (map Z.of_nat (seq 0 (length l))) l.

(** [l.pop(0)]: the list that is left; raises on an empty list. *)
Definition pop0 {A} (l : list A) : result (list A) :=
  match l with
  | [] => Raise IndexError
  | _ :: t => Ok t
  end.

(** [sum(l)] over integers *)
Definition sum (l : list Z) : Z := fold_left Z.add l 0.

(** [a // b] *)
Definition floordiv (a b : Z) : result Z :=
  if b =? 0 then Raise ZeroDivisionError else Ok (a / b).

End Py.

(** ** Numbers

    Python's numbers are duck-typed: the class only adds, multiplies,
    negates, raises to an integer power and divides two integers.  The
    embedding is generic in the number type and is instantiated with the
    rationals, where the arithmetic is exact, and with binary64 floats.

    [npow] is total: it stands for [**] where Python returns, that is for
    a non-negative exponent and a base in (0, 1], as the configuration
    promises for [td_steps] and [discount]; outside ([0 ** -1], an
    overflowing power of a float) Python raises and the model does not.
    The rational [int_div] is the exact quotient, where Python's [/] on two
    integers rounds it to binary64, as the float [int_div] does. *)

Class PyNum (R : Type) : Type := {
  of_int : Z -> R;          (* an integer literal used as a number *)
  nadd : R -> R -> R;       (* a + b *)
  nmul : R -> R -> R;       (* a * b *)
  nneg : R -> R;            (* -a *)
  npow : R -> Z -> R;       (* a ** k *)
  int_div : Z -> Z -> R     (* a / b on two integers, b <> 0 *)
}.

#[export] Instance PyNum_Q : PyNum Q := {
  of_int := inject_Z;
  nadd := Qplus;
  nmul := Qmult;
  nneg := Qopp;
  npow := Qpower;
  int_div := fun a b => Qdiv (inject_Z a) (inject_Z b)
}.

(** Integers as binary64 floats, exact below 2^53. *)
Fixpoint float_of_pos (p : positive) : PrimFloat.float :=
  match p with
  | xH => PrimFloat.one
  | xO q => PrimFloat.mul PrimFloat.two (float_of_pos q)
  | xI q => PrimFloat.add (PrimFloat.mul PrimFloat.two (float_of_pos q))
                          PrimFloat.one
  end.

Definition float_of_Z (z : Z) : PrimFloat.float :=
  match z with
  | Z0 => PrimFloat.zero
  | Zpos p => float_of_pos p
  | Zneg p => PrimFloat.opp (float_of_pos p)
  end.

(** [d ** k] by repeated multiplication: Python's value for the exponents
    0 and 1, and up to the rounding of C's [pow] beyond. *)
Definition float_pow (d : PrimFloat.float) (k : Z) : PrimFloat.float :=
  match k with
  | Z0 => PrimFloat.one
  | Zpos p => Pos.iter (fun x => PrimFloat.mul x d) PrimFloat.one p
  | Zneg p =>
      PrimFloat.div PrimFloat.one
        (Pos.iter (fun x => PrimFloat.mul x d) PrimFloat.one p)
  end.

#[export] Instance PyNum_float : PyNum PrimFloat.float := {
  of_int := float_of_Z;
  nadd := PrimFloat.add;
  nmul := PrimFloat.mul;
  nneg := PrimFloat.opp;
  npow := float_pow;
  int_div := fun a b => PrimFloat.div (float_of_Z a) (float_of_Z b)
}.

(** [a / b] on integers *)
Definition true_div {R} `{PyNum R} (a b : Z) : result R :=
  if b =? 0 then Raise ZeroDivisionError else Ok (int_div a b).

(** Loops whose body can raise. *)
Fixpoint foldM {A B} (f : B -> A -> result B) (l : list A) (b : B) : result B :=
  match l with
  | [] => Ok b
  | x :: l' => let? b' := f b x in foldM f l' b'
  end.

Fixpoint mapM {A B} (f : A -> result B) (l : list A) : result (list B) :=
  match l with
  | [] => Ok []
  | x :: l' => let? y := f x in let? ys := mapM f l' in Ok (y :: ys)
  end.

(** ** The data model *)

(** [self.config], the fields the class reads. *)
Record Config (R : Type) : Type := mkConfig {
  window_size : Z;
  batch_size : Z;
  num_unroll_steps : Z;
  td_steps : Z;
  discount : R
}.

(** A game history, the fields the class reads.  Players and actions are
    integers, observations are opaque to the class. *)
Record GameHistory (R Obs : Type) : Type := mkGameHistory {
  observation_history : list Obs;
  action_history : list Z;
  reward_history : list R;
  to_play_history : list Z;
  child_visits : list (list R);
  root_values : list R
}.

(** The object: [self.config], [self.buffer], [self.self_play_count]. *)
Record ReplayBuffer (R game : Type) : Type := mkReplayBuffer {
  config : Config R;
  buffer : list game;
  self_play_count : Z
}.

(** ** The window store: [__init__], [save_game], [get_self_play_count] *)

Section WindowStore.

Context {R game : Type}.

Definition init (cfg : Config R) : ReplayBuffer R game :=
  mkReplayBuffer cfg [] 0.

Definition save_game (self : ReplayBuffer R game) (game_history : game)
  : result (ReplayBuffer R game) :=
  let? b := (if Py.len (buffer self) >? window_size (config self)
             then Py.pop0 (buffer self)
             else Ok (buffer self)) in
  Ok (mkReplayBuffer (config self) (b ++ [game_history])
                     (self_play_count self + 1)).

(** The method returns its value and leaves the object as it is. *)
Definition get_self_play_count (self : ReplayBuffer R game)
  : Z * ReplayBuffer R game :=
  (self_play_count self, self).

(** A sequence of [save_game] calls, oldest first. *)
Fixpoint save_games (self : ReplayBuffer R game) (gs : list game)
  : result (ReplayBuffer R game) :=
  match gs with
  | [] => Ok self
  | g :: gs' => let? self' := save_game self g in save_games self' gs'
  end.

End WindowStore.

(** ** The target builder: [make_target] *)

Section TargetBuilder.

Context {R Obs : Type} `{PyNum R}.

(** The four lists the method fills, in the order it returns them. *)
Record targets : Type := mkTargets {
  target_values : list R;
  target_rewards : list R;
  target_policies : list (list R);
  actions : list Z
}.

(** The body of the inner loop over
    [enumerate(reward_history[current_index:bootstrap_index])]. *)
Definition add_reward (game_history : GameHistory R Obs)
    (current_index : Z) (discount : R) (value : R) (ir : Z * R) : result R :=
  let (i, reward) := ir in
  let? p := Py.index (to_play_history game_history) current_index in
  let? q := Py.index (to_play_history game_history) (current_index + i) in
  Ok (nadd value
        (nmul (if p =? q then reward else nneg reward) (npow discount i))).

(** The value computed at one step, before the test on [current_index]. *)
Definition step_value (game_history : GameHistory R Obs)
    (current_index td_steps : Z) (discount : R) : result R :=
  let bootstrap_index := current_index + td_steps in
  let? value :=
    (if bootstrap_index <? Py.len (root_values game_history)
     then let? v := Py.index (root_values game_history) bootstrap_index in
          Ok (nmul v (npow discount td_steps))
     else Ok (of_int 0)) in
  foldM (add_reward game_history current_index discount)
        (Py.enumerate
           (Py.slice (reward_history game_history) current_index bootstrap_index))
        value.

(** The uniform policy of the absorbing states:
    [[1 / len(cv[0]) for _ in range(len(cv[0]))]]. *)
Definition uniform_policy (game_history : GameHistory R Obs)
  : result (list R) :=
  let? c := Py.index (child_visits game_history) 0 in
  mapM (fun _ : Z =>
          let? c' := Py.index (child_visits game_history) 0 in
          true_div 1 (Py.len c'))
       (Py.range 0 (Py.len c)).

(** One iteration of the outer loop. *)
Definition target_step (game_history : GameHistory R Obs)
    (td_steps : Z) (discount : R) (acc : targets) (current_index : Z)
  : result targets :=
  let? value := step_value game_history current_index td_steps discount in
  if current_index <? Py.len (root_values game_history) then
    let? r := Py.index (reward_history game_history) current_index in
    let? p := Py.index (child_visits game_history) current_index in
    let? a := Py.index (action_history game_history) current_index in
    Ok (mkTargets (target_values acc ++ [value])
                  (target_rewards acc ++ [r])
                  (target_policies acc ++ [p])
                  (actions acc ++ [a]))
  else
    let? u := uniform_policy game_history in
    Ok (mkTargets (target_values acc ++ [of_int 0])
                  (target_rewards acc ++ [of_int 0])
                  (target_policies acc ++ [u])
                  (actions acc ++ [0])).

Definition make_target (game_history : GameHistory R Obs)
    (state_index num_unroll_steps td_steps : Z) (discount : R)
  : result targets :=
  foldM (target_step game_history td_steps discount)
        (Py.range state_index (state_index + num_unroll_steps + 1))
        (mkTargets [] [] [] []).

End TargetBuilder.

Arguments targets R : clear implicits.

(** ** The caller's world: the random source and the calls made

    [numpy.random.choice] is modelled by a tape of raw draws, the [n]-th
    draw selecting the element [rng n mod len].  The world counts the draws
    consumed and records the calls to the sampler and to the target
    builder, most recent last. *)

Inductive call : Type :=
| SampleGame
| SamplePosition
| MakeTarget.

Record world : Type := mkWorld {
  draws : nat;
  trace : list call
}.

Definition M (A : Type) : Type := world -> result A * world.

Definition ret {A} (a : A) : M A := fun w => (Ok a, w).

Definition bind {A B} (m : M A) (k : A -> M B) : M B :=
  fun w => match m w with
           | (Ok a, w') => k a w'
           | (Raise e, w') => (Raise e, w')
           end.

Definition lift {A} (r : result A) : M A := fun w => (r, w).

Definition raise {A} (e : exn) : M A := lift (Raise e).

Definition log (c : call) : M unit :=
  fun w => (Ok tt, mkWorld (draws w) (trace w ++ [c])).

Notation "x <- m ;; k" := (bind m (fun x => k))
  (at level 61, m at next level, right associativity) : py_scope.

(** ** The sampler and the batch assembler: [sample_game],
       [sample_position], [get_batch] *)

Section BatchAssembler.

Context {R Obs : Type} `{PyNum R}.

(** The tape of raw random draws. *)
Variable rng : nat -> nat.

(** [numpy.random.choice(l)] *)
Definition choice {A} (l : list A) : M A :=
  fun w => match l with
           | [] => (Raise ValueError_empty_choice, w)
           | d :: _ =>
               (Ok (nth (Nat.modulo (rng (draws w)) (length l)) l d),
                mkWorld (S (draws w)) (trace w))
           end.

Definition sample_game (buffer : list (GameHistory R Obs))
  : M (GameHistory R Obs) :=
  _ <- log SampleGame ;;
  choice buffer.

Definition sample_position (game_history : GameHistory R Obs) : M Z :=
  _ <- log SamplePosition ;;
  choice (Py.range 0 (Py.len (reward_history game_history))).

(** The five lists of a batch, in the order [get_batch] returns them. *)
Record batch : Type := mkBatch {
  observation_batch : list Obs;
  action_batch : list (list Z);
  value_batch : list (list R);
  reward_batch : list (list R);
  policy_batch : list (list (list R))
}.

(** The body of [for _ in range(batch_size)]. *)
Definition draw_sample (self : ReplayBuffer R (GameHistory R Obs))
    (acc : batch) : M batch :=
  game_history <- sample_game (buffer self) ;;
  game_pos <- sample_position game_history ;;
  _ <- log MakeTarget ;;
  t <- lift (make_target game_history game_pos
               (num_unroll_steps (config self))
               (td_steps (config self))
               (discount (config self))) ;;
  o <- lift (Py.index (observation_history game_history) game_pos) ;;
  ret (mkBatch (observation_batch acc ++ [o])
               (action_batch acc ++ [actions t])
               (value_batch acc ++ [target_values t])
               (reward_batch acc ++ [target_rewards t])
               (policy_batch acc ++ [target_policies t])).

Fixpoint draw_samples (self : ReplayBuffer R (GameHistory R Obs))
    (n : nat) (acc : batch) : M batch :=
  match n with
  | O => ret acc
  | S n' => acc' <- draw_sample self acc ;; draw_samples self n' acc'
  end.

(** The part of [get_batch] after the sampling loop: the symmetries. *)
Definition extend_batch (exploit_symmetries : list Z) (raw : batch)
  : result batch :=
  let ext_observation_batch := Py.slice_all (observation_batch raw) in
  let? e0 := Py.index exploit_symmetries 0 in
  let ext_observation_batch :=
    if e0 =? 1
    then ext_observation_batch ++
         Py.slice_all (Py.slice_rev (Py.slice_all (Py.slice_all
           (observation_batch raw))))
    else ext_observation_batch in
  let? e1 := Py.index exploit_symmetries 1 in
  let ext_observation_batch :=
    if e1 =? 1
    then ext_observation_batch ++
         Py.slice_rev (Py.slice_all (Py.slice_all (Py.slice_all
           (observation_batch raw))))
    else ext_observation_batch in
  let? e2 := Py.index exploit_symmetries 2 in
  let ext_observation_batch :=
    if e2 =? 1
    then ext_observation_batch ++
         Py.slice_rev (Py.slice_rev (Py.slice_all (Py.slice_all
           (observation_batch raw))))
    else ext_observation_batch in
  let k := Z.to_nat (Py.sum exploit_symmetries) in
  Ok (mkBatch ext_observation_batch
        (Nat.iter k (fun ext => ext ++ action_batch raw) (action_batch raw))
        (Nat.iter k (fun ext => ext ++ value_batch raw) (value_batch raw))
        (Nat.iter k (fun ext => ext ++ reward_batch raw) (reward_batch raw))
        (Nat.iter k (fun ext => ext ++ policy_batch raw) (policy_batch raw))).

Definition get_batch (self : ReplayBuffer R (GameHistory R Obs))
    (exploit_symmetries : list Z) : M batch :=
  n <- lift (if Py.sum exploit_symmetries =? 0
             then Ok (batch_size (config self))
             else Py.floordiv (batch_size (config self))
                              (Py.sum exploit_symmetries + 1)) ;;
  if negb ((Py.sum exploit_symmetries + 1) * n =? batch_size (config self))
  then raise ValueError_batch_size
  else
    raw <- draw_samples self (Z.to_nat n) (mkBatch [] [] [] [] []) ;;
    lift (extend_batch exploit_symmetries raw).

End BatchAssembler.

Arguments batch R Obs : clear implicits.

(** ** Notions the properties are stated with *)

Section TargetNotions.

Context {R Obs : Type} `{PyNum R}.

(** The invariant of a recorded trajectory: the five per-step lists have
    one common length, which is at least one. *)
Definition well_formed (g : GameHistory R Obs) : Prop :=
  (1 <= length (reward_history g))%nat /\
  length (action_history g) = length (reward_history g) /\
  length (root_values g) = length (reward_history g) /\
  length (child_visits g) = length (reward_history g) /\
  length (to_play_history g) = length (reward_history g).

(** The recorded length of a trajectory. *)
Definition recorded_length (g : GameHistory R Obs) : Z :=
  Py.len (root_values g).

(** The size of the action space, read off [child_visits[0]]. *)
Definition action_space_size (g : GameHistory R Obs) : nat :=
  length (nth 0 (child_visits g) []).

(** The bootstrap part of a value target. *)
Definition bootstrap (g : GameHistory R Obs) (current_index td_steps : Z)
    (discount : R) : R :=
  if current_index + td_steps <? Py.len (root_values g)
  then nmul (nth (Z.to_nat (current_index + td_steps)) (root_values g) (of_int 0))
            (npow discount td_steps)
  else of_int 0.

(** The reward at offset [i] from [current_index], negated when the player
    to move there is not the player to move at [current_index], times
    [discount ** i]. *)
Definition signed_reward (g : GameHistory R Obs) (current_index : Z)
    (discount : R) (i : nat) : R :=
  let r := nth (Z.to_nat current_index + i) (reward_history g) (of_int 0) in
  nmul (if nth (Z.to_nat current_index) (to_play_history g) 0
           =? nth (Z.to_nat current_index + i) (to_play_history g) 0
        then r else nneg r)
       (npow discount (Z.of_nat i)).

(** The number of rewards between [current_index] and the bootstrap index,
    clipped to the recorded length. *)
Definition horizon (g : GameHistory R Obs) (current_index td_steps : Z) : nat :=
  Nat.min (Z.to_nat td_steps)
          (length (reward_history g) - Z.to_nat current_index).

(** The value the loop accumulates, in the order it adds the terms. *)
Definition value_at (g : GameHistory R Obs) (current_index td_steps : Z)
    (discount : R) : R :=
  fold_left (fun v i => nadd v (signed_reward g current_index discount i))
            (seq 0 (horizon g current_index td_steps))
            (bootstrap g current_index td_steps discount).

(** The policy of an absorbing state. *)
Definition uniform (g : GameHistory R Obs) : list R :=
  repeat (int_div 1 (Z.of_nat (action_space_size g))) (action_space_size g).

(** What [make_target] appends at [current_index], list by list. *)
Definition value_entry g td_steps discount (current_index : Z) : R :=
  if current_index <? recorded_length g
  then value_at g current_index td_steps discount
  else of_int 0.

Definition reward_entry g (current_index : Z) : R :=
  if current_index <? recorded_length g
  then nth (Z.to_nat current_index) (reward_history g) (of_int 0)
  else of_int 0.

Definition policy_entry g (current_index : Z) : list R :=
  if current_index <? recorded_length g
  then nth (Z.to_nat current_index) (child_visits g) []
  else uniform g.

Definition action_entry (g : GameHistory R Obs) (current_index : Z) : Z :=
  if current_index <? recorded_length g
  then nth (Z.to_nat current_index) (action_history g) 0
  else 0.

(** What [make_target] returns on the steps [cis], list by list. *)
Definition entries (g : GameHistory R Obs) (td_steps : Z) (discount : R)
    (cis : list Z) : targets R :=
  mkTargets (map (value_entry g td_steps discount) cis)
            (map (reward_entry g) cis)
            (map (policy_entry g) cis)
            (map (action_entry g) cis).

End TargetNotions.

(** The sum of a list of rationals. *)
Definition Qsum (l : list Q) : Q := fold_right Qplus 0%Q l.

(** The value target as the specification words it: the bootstrap value
    plus the sum of the signed, discounted rewards up to the horizon. *)
Definition value_spec {Obs} (g : GameHistory Q Obs) (current_index td_steps : Z)
    (discount : Q) : Q :=
  (bootstrap g current_index td_steps discount
   + Qsum (map (signed_reward g current_index discount)
               (seq 0 (horizon g current_index td_steps))))%Q.

(** The number of enabled symmetry flags. *)
Definition count_enabled (exploit_symmetries : list Z) : Z :=
  Py.len (filter (fun e => e =? 1) exploit_symmetries).

(** A flag list holds booleans, written 0 and 1. *)
Definition boolean_flags (exploit_symmetries : list Z) : Prop :=
  Forall (fun e => e = 0 \/ e = 1) exploit_symmetries.

(** Observations as tensors: channels of rows of cells. *)
Definition tensor : Type := list (list (list Z)).

(** The flips of the two spatial axes of a tensor. *)
Definition flip_rows (t : tensor) : tensor := map (@rev (list Z)) t.
Definition flip_columns (t : tensor) : tensor := map (map (@rev Z)) t.
Definition flip_both (t : tensor) : tensor := flip_rows (flip_columns t).

(** A batch followed by a copy of itself, list by list. *)
Definition doubled {R Obs} (b : batch R Obs) : batch R Obs :=
  mkBatch (observation_batch b ++ observation_batch b)
          (action_batch b ++ action_batch b)
          (value_batch b ++ value_batch b)
          (reward_batch b ++ reward_batch b)
          (policy_batch b ++ policy_batch b).

(** A result raises no exception but those of [P]. *)
Definition raises_only {A} (P : exn -> Prop) (r : result A) : Prop :=
  forall e, r = Raise e -> P e.

(** The exceptions other than the one [get_batch] raises itself. *)
Definition not_batch_size (e : exn) : Prop := e <> ValueError_batch_size.

(** The batch before any sample is drawn. *)
Definition empty_batch {R Obs} : batch R Obs := mkBatch [] [] [] [] [].

(** ** Notions of the further properties *)

(** The exception of a read outside a sequence. *)
Definition is_IndexError (e : exn) : Prop := e = IndexError.

(** [k] copies of a list, one after the other. *)
Definition copies {A} (k : nat) (l : list A) : list A := concat (repeat l k).

(** The calls [get_batch] makes for [n] samples. *)
Definition sampling_trace (n : nat) : list call :=
  concat (repeat [SampleGame; SamplePosition; MakeTarget] n).

Section FurtherNotions.

Context {R Obs : Type} `{PyNum R}.

(** A trajectory with its players renamed by [f]. *)
Definition relabel (f : Z -> Z) (g : GameHistory R Obs) : GameHistory R Obs :=
  mkGameHistory (observation_history g) (action_history g) (reward_history g)
                (map f (to_play_history g)) (child_visits g) (root_values g).

(** The discounted reward at offset [i] from [current_index], sign kept. *)
Definition plain_reward (g : GameHistory R Obs) (current_index : Z)
    (discount : R) (i : nat) : R :=
  nmul (nth (Z.to_nat current_index + i) (reward_history g) (of_int 0))
       (npow discount (Z.of_nat i)).

(** A trajectory [get_batch] can sample at every position: well formed,
    with an observation for each of its steps. *)
Definition playable (g : GameHistory R Obs) : Prop :=
  well_formed g /\
  (length (reward_history g) <= length (observation_history g))%nat.

(** The five entries of one sample: the observation of a game of the buffer
    at a position that has a reward, with the targets [make_target] builds
    there under the configuration of the buffer. *)
Definition drawn_from (self : ReplayBuffer R (GameHistory R Obs))
    (o : Obs) (a : list Z) (v r : list R) (p : list (list R)) : Prop :=
  exists g pos t,
    In g (buffer self) /\
    0 <= pos < Py.len (reward_history g) /\
    make_target g pos (num_unroll_steps (config self))
                (td_steps (config self)) (discount (config self)) = Ok t /\
    Py.index (observation_history g) pos = Ok o /\
    a = actions t /\ v = target_values t /\
    r = target_rewards t /\ p = target_policies t.

(** Entry [i] of the five lists of a batch is one sample. *)
Definition sample_at (self : ReplayBuffer R (GameHistory R Obs))
    (b : batch R Obs) (i : nat) : Prop :=
  exists o a v r p,
    nth_error (observation_batch b) i = Some o /\
    nth_error (action_batch b) i = Some a /\
    nth_error (value_batch b) i = Some v /\
    nth_error (reward_batch b) i = Some r /\
    nth_error (policy_batch b) i = Some p /\
    drawn_from self o a v r p.

(** The batch [get_batch] builds from the raw batch under three boolean
    flags: the observations followed by their list reversed once for each
    of the first two flags and unchanged for the third, the labels repeated
    once for each enabled flag. *)
Definition extended (e0 e1 e2 : bool) (raw : batch R Obs) : batch R Obs :=
  let k := S (Nat.b2n e0 + Nat.b2n e1 + Nat.b2n e2) in
  mkBatch (observation_batch raw
           ++ (if e0 then rev (observation_batch raw) else [])
           ++ (if e1 then rev (observation_batch raw) else [])
           ++ (if e2 then observation_batch raw else []))
          (copies k (action_batch raw))
          (copies k (value_batch raw))
          (copies k (reward_batch raw))
          (copies k (policy_batch raw)).

(** Two batches one after the other, list by list. *)
Definition batch_app (b1 b2 : batch R Obs) : batch R Obs :=
  mkBatch (observation_batch b1 ++ observation_batch b2)
          (action_batch b1 ++ action_batch b2)
          (value_batch b1 ++ value_batch b2)
          (reward_batch b1 ++ reward_batch b2)
          (policy_batch b1 ++ policy_batch b2).

(** Each of the five lists of a batch has [n] entries. *)
Definition batch_of_length (b : batch R Obs) (n : nat) : Prop :=
  length (observation_batch b) = n /\
  length (action_batch b) = n /\
  length (value_batch b) = n /\
  length (reward_batch b) = n /\
  length (policy_batch b) = n.

End FurtherNotions.

(** A flag as the integer Python sums and compares. *)
Definition flag (e : bool) : Z := if e then 1 else 0.

(** A discount as the configuration promises it: in (0, 1]. *)
Definition unit_discount (d : Q) : Prop := (0 < d /\ d <= 1)%Q.

(** [sum(l)] over binary64 floats. *)
Definition Fsum (l : list PrimFloat.float) : PrimFloat.float :=
  fold_left PrimFloat.add l PrimFloat.zero.

(** ** Example data *)

(** A configuration with a window of one game. *)
Definition window_one : Config Q := mkConfig 1 2 0 0 1%Q.

(** A recorded two-player game of three moves with two actions. *)
Definition three_moves : GameHistory Q tensor :=
  mkGameHistory
    [ [[[1; 2]; [3; 4]]]; [[[5; 6]; [7; 8]]];
      [[[9; 10]; [11; 12]]]; [[[13; 14]; [15; 16]]] ]
    [1; 0; 1]
    [1; 2; 3]%Q
    [0; 1; 0]
    [[1 # 4; 3 # 4]; [1 # 2; 1 # 2]; [3 # 4; 1 # 4]]%Q
    [4; 5; 6]%Q.

(** The trajectory of the zero-sum example: players A and B are 0 and 1. *)
Definition zero_sum_example : GameHistory Q unit :=
  mkGameHistory
    []
    [0; 0; 0]
    [1; 1; 1]%Q
    [0; 1; 0; 0]
    [[1 # 2; 1 # 2]; [1 # 2; 1 # 2]; [1 # 2; 1 # 2]; [1 # 2; 1 # 2]]%Q
    [0; 0; 0; 5]%Q.

(** A replay buffer holding [three_moves], with a batch size of 4. *)
Definition one_game_buffer : ReplayBuffer Q (GameHistory Q tensor) :=
  mkReplayBuffer (mkConfig 10 4 1 2 (1 # 2)) [three_moves] 1.

(** The same buffer with a batch size of 2 and of 3. *)
Definition one_game_buffer_2 : ReplayBuffer Q (GameHistory Q tensor) :=
  mkReplayBuffer (mkConfig 10 2 1 2 (1 # 2)) [three_moves] 1.

Definition one_game_buffer_3 : ReplayBuffer Q (GameHistory Q tensor) :=
  mkReplayBuffer (mkConfig 10 3 1 2 (1 # 2)) [three_moves] 1.

(** Two recorded games of one move each, with different observations and
    different labels. *)
Definition first_game : GameHistory Q tensor :=
  mkGameHistory [ [[[1; 2]; [3; 4]]]; [[[0; 0]; [0; 0]]] ]
                [0] [1]%Q [0] [[1; 0]]%Q [1]%Q.

Definition second_game : GameHistory Q tensor :=
  mkGameHistory [ [[[5; 6]; [7; 8]]]; [[[0; 0]; [0; 0]]] ]
                [1] [2]%Q [0] [[0; 1]]%Q [3]%Q.

Definition two_game_buffer : ReplayBuffer Q (GameHistory Q tensor) :=
  mkReplayBuffer (mkConfig 10 4 0 0 1%Q) [first_game; second_game] 2.

(** A replay buffer that holds no game yet, with a batch size of 4. *)
Definition no_games : ReplayBuffer Q (GameHistory Q tensor) :=
  mkReplayBuffer (mkConfig 10 4 1 2 (1 # 2)) [] 0.

(** A well-formed game of one move whose visit distribution is empty. *)
Definition no_actions : GameHistory Q unit :=
  mkGameHistory [] [0] [1]%Q [0] [[]] [1]%Q.

(** A game of one move with seven actions, in binary64. *)
Definition seven_actions : GameHistory PrimFloat.float unit :=
  mkGameHistory [] [0] [PrimFloat.one] [0]
    [[PrimFloat.one; PrimFloat.zero; PrimFloat.zero; PrimFloat.zero;
      PrimFloat.zero; PrimFloat.zero; PrimFloat.zero]]
    [PrimFloat.one].

(** A tape of draws: 0, 0, 1, 1, 2, 2, ... *)
Definition paired_draws (n : nat) : nat := Nat.div n 2.

(** The world before any call. *)
Definition fresh : world := mkWorld 0 [].

(** * Properties *)

Unset Implicit Arguments.

(** ** The window store *)

Section WindowStoreFacts.

Context {R game : Type}.
Implicit Types (self : ReplayBuffer R game) (g : game) (gs : list game).

Lemma save_game_room self g :
  Py.len (buffer self) <= window_size (config self) ->
  save_game self g =
    Ok (mkReplayBuffer (config self) (buffer self ++ [g])
                       (self_play_count self + 1)).
Proof.
  intros Hle. unfold save_game.
  destruct (Z.gtb_spec (Py.len (buffer self)) (window_size (config self)));
    [lia | reflexivity].
Qed.

Lemma save_game_full self g x t :
  buffer self = x :: t ->
  Py.len (buffer self) > window_size (config self) ->
  save_game self g =
    Ok (mkReplayBuffer (config self) (t ++ [g]) (self_play_count self + 1)).
Proof.
  intros Hb Hgt. unfold save_game.
  destruct (Z.gtb_spec (Py.len (buffer self)) (window_size (config self)));
    [rewrite Hb; reflexivity | lia].
Qed.

Lemma save_game_config self g self' :
  save_game self g = Ok self' -> config self' = config self.
Proof.
  unfold save_game.
  destruct (Py.len (buffer self) >? window_size (config self)).
  - destruct (buffer self); simpl; [discriminate | ].
    intros [= <-]. reflexivity.
  - simpl. intros [= <-]. reflexivity.
Qed.

Lemma save_game_count self g self' :
  save_game self g = Ok self' ->
  self_play_count self' = self_play_count self + 1.
Proof.
  unfold save_game.
  destruct (Py.len (buffer self) >? window_size (config self)).
  - destruct (buffer self); simpl; [discriminate | ].
    intros [= <-]. reflexivity.
  - simpl. intros [= <-]. reflexivity.
Qed.

Lemma save_games_count gs : forall self self',
  save_games self gs = Ok self' ->
  self_play_count self' = self_play_count self + Py.len gs.
Proof.
  unfold Py.len.
  induction gs as [| g gs IH]; intros self self'; simpl.
  - intros [= <-]. lia.
  - destruct (save_game self g) as [s1 | e] eqn:E; simpl; [ | discriminate].
    intros Hrun. rewrite (IH _ _ Hrun), (save_game_count _ _ _ E). lia.
Qed.

(** The window after any run: the most recent insertions, in order. *)
Lemma save_games_window gs : forall self,
  0 <= window_size (config self) ->
  Py.len (buffer self) <= window_size (config self) + 1 ->
  exists self',
    save_games self gs = Ok self' /\
    config self' = config self /\
    buffer self' =
      skipn (length (buffer self ++ gs)
             - S (Z.to_nat (window_size (config self))))
            (buffer self ++ gs).
Proof.
  unfold Py.len.
  induction gs as [| g gs IH]; intros self Hw Hlen.
  - exists self. repeat split. rewrite app_nil_r.
    replace (_ - _)%nat with 0%nat by lia. reflexivity.
  - cbn [save_games].
    destruct (Z.gtb_spec (Py.len (buffer self)) (window_size (config self)))
      as [Hgt | Hle]; unfold Py.len in *.
    + destruct (buffer self) as [| x t] eqn:Hb; cbn [length] in *; [lia | ].
      rewrite (save_game_full self g x t Hb)
        by (unfold Py.len; rewrite Hb; cbn [length]; lia).
      cbn [rbind].
      destruct (IH (mkReplayBuffer (config self) (t ++ [g])
                                   (self_play_count self + 1)))
        as (s' & Hrun & Hcfg & Hbuf); cbn [config buffer]; auto.
      { rewrite length_app. cbn [length]. lia. }
      exists s'. split; [exact Hrun | split; [exact Hcfg | ]].
      rewrite Hbuf. cbn [config buffer]. rewrite <- app_assoc.
      change ([g] ++ gs) with (g :: gs).
      change ((x :: t) ++ g :: gs) with (x :: (t ++ g :: gs)).
      cbn [length].
      assert (Hm : (S (Z.to_nat (window_size (config self)))
                    <= length (t ++ g :: gs))%nat)
        by (rewrite length_app; cbn [length]; lia).
      replace (S (length (t ++ g :: gs))
               - S (Z.to_nat (window_size (config self))))%nat
        with (S (length (t ++ g :: gs)
                 - S (Z.to_nat (window_size (config self)))))%nat by lia.
      reflexivity.
    + rewrite (save_game_room self g) by (unfold Py.len; lia).
      cbn [rbind].
      destruct (IH (mkReplayBuffer (config self) (buffer self ++ [g])
                                   (self_play_count self + 1)))
        as (s' & Hrun & Hcfg & Hbuf); cbn [config buffer]; auto.
      { rewrite length_app. cbn [length]. lia. }
      exists s'. split; [exact Hrun | split; [exact Hcfg | ]].
      rewrite Hbuf. cbn [config buffer]. rewrite <- app_assoc.
      reflexivity.
Qed.

End WindowStoreFacts.

(** The bound [window_size] is exceeded (counterexample to C4 as stated).
    With [window_size = 1], two calls of [save_game] on an empty store leave
    two trajectories in the buffer: the test [len(self.buffer) >
    window_size] lets the buffer reach [window_size + 1]. *)
Theorem C4_window_size_exceeded :
  exists self : ReplayBuffer Q nat,
    save_games (init window_one) [10%nat; 20%nat] = Ok self /\
    buffer self = [10%nat; 20%nat] /\
    Py.len (buffer self) = 2 /\
    ~ Py.len (buffer self) <= window_size (config self).
Proof.
  eexists. split; [reflexivity | ].
  split; [reflexivity | ]. split; [reflexivity | ].
  cbn. lia.
Qed.

(** C4, amended: for every sequence of [save_game] calls on an empty store
    with a non-negative [window_size], every call succeeds and the number
    of stored trajectories never exceeds [window_size + 1]; it is the
    number of calls while that is at most [window_size + 1], and
    [window_size + 1] from then on. *)
Theorem C4_window_bound {R game : Type} (cfg : Config R) (gs : list game) :
  0 <= window_size cfg ->
  exists self : ReplayBuffer R game,
    save_games (init cfg) gs = Ok self /\
    Py.len (buffer self) <= window_size cfg + 1 /\
    Py.len (buffer self) = Z.min (Py.len gs) (window_size cfg + 1).
Proof.
  intros Hw.
  destruct (save_games_window gs (init cfg)) as (self & Hrun & _ & Hbuf);
    cbn [init config buffer]; unfold Py.len; cbn [length]; try lia.
  cbn [init config buffer app] in Hbuf.
  exists self. split; [exact Hrun | ].
  rewrite Hbuf. unfold Py.len. rewrite length_skipn. lia.
Qed.

Lemma C4_window_bound_witness :
  exists self : ReplayBuffer Q nat,
    save_games (init window_one) [1; 2; 3; 4; 5]%nat = Ok self /\
    Py.len (buffer self) <= 2 /\
    Py.len (buffer self) = 2.
Proof.
  destruct (@C4_window_bound Q nat window_one [1; 2; 3; 4; 5]%nat
              ltac:(cbn; lia))
    as (self & Hrun & Hle & Heq).
  exists self. split; [exact Hrun | ]. split; [exact Hle | exact Heq].
Defined.

(** C5: after any sequence of [save_game] calls on an empty store the buffer
    holds at most [window_size + 1] trajectories; it holds exactly the most
    recent insertions in insertion order, so evictions take the oldest
    insertion first; and once more than [window_size] games were saved the
    oldest survivor is insertion number [N - window_size], [N] being the
    number of calls.  A full buffer loses its head on the next call. *)
Theorem C5_window_fifo {R game : Type} (cfg : Config R) (gs : list game) :
  0 <= window_size cfg ->
  (exists self : ReplayBuffer R game,
     save_games (init cfg) gs = Ok self /\
     Py.len (buffer self) <= window_size cfg + 1 /\
     buffer self = skipn (length gs - S (Z.to_nat (window_size cfg))) gs /\
     (Py.len gs > window_size cfg ->
      nth_error (buffer self) 0 =
        nth_error gs (length gs - 1 - Z.to_nat (window_size cfg)))) /\
  (forall (self : ReplayBuffer R game) g x t,
     config self = cfg ->
     buffer self = x :: t ->
     Py.len (buffer self) > window_size cfg ->
     exists self', save_game self g = Ok self' /\ buffer self' = t ++ [g]).
Proof.
  intros Hw. split.
  - destruct (save_games_window gs (init cfg)) as (self & Hrun & _ & Hbuf);
      cbn [init config buffer]; unfold Py.len; cbn [length]; try lia.
    cbn [init config buffer app] in Hbuf.
    exists self. split; [exact Hrun | ].
    split; [ | split; [exact Hbuf | ]].
    + rewrite Hbuf. unfold Py.len. rewrite length_skipn. lia.
    + unfold Py.len. intros HN. rewrite Hbuf, nth_error_skipn. f_equal. lia.
  - intros self g x t <- Hb Hgt.
    eexists. split; [apply (save_game_full self g x t Hb Hgt) | reflexivity].
Qed.

Lemma C5_window_fifo_witness :
  exists self : ReplayBuffer Q nat,
    save_games (init window_one) [1; 2; 3; 4]%nat = Ok self /\
    buffer self = [3; 4]%nat /\
    nth_error (buffer self) 0 = Some 3%nat.
Proof.
  destruct (proj1 (@C5_window_fifo Q nat window_one [1; 2; 3; 4]%nat
                     ltac:(cbn; lia)))
    as (self & Hrun & _ & Hbuf & Hold).
  exists self. split; [exact Hrun | ]. split; [exact Hbuf | ].
  rewrite Hold by (cbn; lia). reflexivity.
Defined.

(** C9: after [N] calls of [save_game] the counter reads [N], whatever was
    evicted; with a non-negative window every call succeeds; each call
    raises the counter by one, so it never decreases; and
    [get_self_play_count] returns the counter and leaves the object as it
    was. *)
Theorem C9_self_play_count {R game : Type} (cfg : Config R) (gs : list game) :
  (forall self : ReplayBuffer R game,
     save_games (init cfg) gs = Ok self ->
     fst (get_self_play_count self) = Py.len gs) /\
  (0 <= window_size cfg ->
   exists self : ReplayBuffer R game,
     save_games (init cfg) gs = Ok self /\
     fst (get_self_play_count self) = Py.len gs) /\
  (forall (self self' : ReplayBuffer R game) g,
     save_game self g = Ok self' ->
     self_play_count self' = self_play_count self + 1) /\
  (forall (self self' : ReplayBuffer R game) gs',
     save_games self gs' = Ok self' ->
     self_play_count self <= self_play_count self') /\
  (forall self : ReplayBuffer R game,
     snd (get_self_play_count self) = self /\
     fst (get_self_play_count self) = self_play_count self).
Proof.
  split; [ | split; [ | split; [ | split]]].
  - intros self Hrun. cbn [get_self_play_count fst].
    rewrite (save_games_count _ _ _ Hrun). reflexivity.
  - intros Hw.
    destruct (save_games_window gs (init cfg)) as (self & Hrun & _);
      cbn [init config buffer]; unfold Py.len; cbn [length]; try lia.
    exists self. split; [exact Hrun | ].
    cbn [get_self_play_count fst].
    rewrite (save_games_count _ _ _ Hrun). reflexivity.
  - intros self self' g Hs. exact (save_game_count _ _ _ Hs).
  - intros self self' gs' Hrun. rewrite (save_games_count _ _ _ Hrun).
    unfold Py.len. lia.
  - intros self. split; reflexivity.
Qed.

Lemma C9_self_play_count_witness :
  exists self : ReplayBuffer Q nat,
    save_games (init window_one) [1; 2; 3; 4]%nat = Ok self /\
    fst (get_self_play_count self) = 4 /\
    Py.len (buffer self) = 2.
Proof.
  destruct (proj1 (proj2 (@C9_self_play_count Q nat window_one [1; 2; 3; 4]%nat))
              ltac:(cbn; lia))
    as (self & Hrun & Hcount).
  exists self. split; [exact Hrun | ]. split; [exact Hcount | ].
  cbn in Hrun. injection Hrun as <-. reflexivity.
Defined.

(** ** Python sequences: indexing, slicing and loops inside the bounds *)

Section SequenceFacts.

Context {A : Type}.
Implicit Types (l m : list A) (d : A).

Lemma index_in_range l (i : Z) d :
  0 <= i < Py.len l -> Py.index l i = Ok (nth (Z.to_nat i) l d).
Proof.
  unfold Py.index, Py.len. intros Hi.
  destruct (Z.ltb_spec i 0); [lia | ].
  destruct (Z.ltb_spec i 0); [lia | ].
  rewrite (nth_error_nth' l d) by lia. reflexivity.
Qed.

Lemma enumerate_from l d : forall s : nat,
  combine (map Z.of_nat (seq s (length l))) l =
  map (fun i => (Z.of_nat (s + i), nth i l d)) (seq 0 (length l)).
Proof.
  induction l as [| x l IH]; intros s; cbn [length seq map combine].
  - reflexivity.
  - rewrite Nat.add_0_r. f_equal.
    rewrite IH, <- seq_shift, map_map. cbn [nth].
    apply map_ext. intros i. f_equal. f_equal. lia.
Qed.

Lemma enumerate_nth l d :
  Py.enumerate l = map (fun i => (Z.of_nat i, nth i l d)) (seq 0 (length l)).
Proof. unfold Py.enumerate. apply (enumerate_from l d 0). Qed.

Lemma clamp_nonneg l (i : Z) :
  0 <= i -> Py.clamp l i = Nat.min (Z.to_nat i) (length l).
Proof.
  unfold Py.clamp, Py.len. intros Hi.
  destruct (Z.ltb_spec i 0); lia.
Qed.

Lemma slice_length l (a k : Z) :
  0 <= a -> 0 <= k ->
  length (Py.slice l a (a + k)) =
    Nat.min (Z.to_nat k) (length l - Z.to_nat a).
Proof.
  intros Ha Hk. unfold Py.slice.
  rewrite !clamp_nonneg, length_firstn, length_skipn by lia. lia.
Qed.

Lemma slice_nth l (a k : Z) d (i : nat) :
  0 <= a -> 0 <= k ->
  (i < Nat.min (Z.to_nat k) (length l - Z.to_nat a))%nat ->
  nth i (Py.slice l a (a + k)) d = nth (Z.to_nat a + i) l d.
Proof.
  intros Ha Hk Hi. unfold Py.slice.
  rewrite !clamp_nonneg, nth_firstn, nth_skipn by lia.
  destruct (Nat.ltb_spec i
              (Nat.min (Z.to_nat (a + k)) (length l)
               - Nat.min (Z.to_nat a) (length l))); [ | lia].
  f_equal. lia.
Qed.

Lemma enumerate_slice l (a k : Z) d :
  0 <= a -> 0 <= k ->
  Py.enumerate (Py.slice l a (a + k)) =
  map (fun i => (Z.of_nat i, nth (Z.to_nat a + i) l d))
      (seq 0 (Nat.min (Z.to_nat k) (length l - Z.to_nat a))).
Proof.
  intros Ha Hk. rewrite (enumerate_nth _ d), slice_length by lia.
  apply map_ext_in. intros i Hi. apply in_seq in Hi.
  rewrite slice_nth by lia. reflexivity.
Qed.

End SequenceFacts.

Lemma foldM_map_pure {A B C} (f : B -> A -> result B) (h : C -> A)
    (g : B -> C -> B) (l : list C) :
  (forall b c, In c l -> f b (h c) = Ok (g b c)) ->
  forall b, foldM f (map h l) b = Ok (fold_left g l b).
Proof.
  induction l as [| c l IH]; intros Hf b; cbn [map foldM fold_left].
  - reflexivity.
  - rewrite Hf by (left; reflexivity). cbn [rbind].
    apply IH. intros b' c' Hin. apply Hf. right. exact Hin.
Qed.

Lemma mapM_const {A B} (f : A -> result B) (y : B) (l : list A) :
  (forall x, In x l -> f x = Ok y) ->
  mapM f l = Ok (repeat y (length l)).
Proof.
  induction l as [| x l IH]; intros Hf; cbn [mapM length repeat].
  - reflexivity.
  - rewrite Hf by (left; reflexivity). cbn [rbind].
    rewrite IH by (intros x' Hin; apply Hf; right; exact Hin).
    reflexivity.
Qed.

Lemma range_length (a b : Z) : length (Py.range a b) = Z.to_nat (b - a).
Proof. unfold Py.range. rewrite length_map, length_seq. reflexivity. Qed.

Lemma range_nth_error (a b : Z) (k : nat) :
  (k < Z.to_nat (b - a))%nat ->
  nth_error (Py.range a b) k = Some (a + Z.of_nat k).
Proof.
  intros Hk. unfold Py.range.
  rewrite nth_error_map, nth_error_seq.
  destruct (Nat.ltb_spec k (Z.to_nat (b - a))); [reflexivity | lia].
Qed.

(** ** The target builder *)

Section TargetFacts.

Context {R Obs : Type} `{PyNum R}.
Implicit Types (g : GameHistory R Obs) (d : R).

Lemma add_reward_ok g (current_index : Z) d (v : R) (i : nat) :
  well_formed g -> 0 <= current_index ->
  (Z.to_nat current_index + i < length (reward_history g))%nat ->
  add_reward g current_index d v
    (Z.of_nat i, nth (Z.to_nat current_index + i) (reward_history g) (of_int 0))
  = Ok (nadd v (signed_reward g current_index d i)).
Proof.
  intros (_ & _ & _ & _ & Hp) Hc Hi. unfold add_reward, signed_reward.
  rewrite (index_in_range _ _ 0) by (unfold Py.len; lia). cbn [rbind].
  rewrite (index_in_range _ _ 0) by (unfold Py.len; lia). cbn [rbind].
  replace (Z.to_nat (current_index + Z.of_nat i))
    with (Z.to_nat current_index + i)%nat by lia.
  reflexivity.
Qed.

Lemma step_value_ok g (current_index td_steps : Z) d :
  well_formed g -> 0 <= current_index -> 0 <= td_steps ->
  step_value g current_index td_steps d
  = Ok (value_at g current_index td_steps d).
Proof.
  intros Hwf Hc Ht. unfold step_value, value_at, bootstrap, horizon.
  rewrite (enumerate_slice _ _ _ (of_int 0)) by assumption.
  destruct (Z.ltb_spec (current_index + td_steps) (Py.len (root_values g))).
  - rewrite (index_in_range _ _ (of_int 0)) by lia. cbn [rbind].
    apply foldM_map_pure. intros b i Hi. apply in_seq in Hi.
    apply add_reward_ok; try assumption. lia.
  - cbn [rbind].
    apply foldM_map_pure. intros b i Hi. apply in_seq in Hi.
    apply add_reward_ok; try assumption. lia.
Qed.

Lemma uniform_policy_ok g :
  well_formed g -> uniform_policy g = Ok (uniform g).
Proof.
  intros (Hl & _ & _ & Hc & _). unfold uniform_policy, uniform, action_space_size.
  rewrite (index_in_range _ _ []) by (unfold Py.len; lia). cbn [rbind].
  change (Z.to_nat 0) with 0%nat.
  set (c := nth 0 (child_visits g) []).
  rewrite (mapM_const _ (int_div 1 (Z.of_nat (length c)))).
  - rewrite range_length. f_equal. f_equal. unfold Py.len. lia.
  - intros x Hx. cbn [rbind]. unfold true_div, Py.len.
    assert (length c <> 0)%nat.
    { intros E. unfold Py.range, Py.len in Hx. rewrite E in Hx. exact Hx. }
    destruct (Z.eqb_spec (Z.of_nat (length c)) 0); [lia | reflexivity].
Qed.

End TargetFacts.

Section MakeTargetFacts.

Context {R Obs : Type} `{PyNum R}.
Implicit Types (g : GameHistory R Obs) (d : R).

Lemma target_step_ok g (td_steps : Z) d (acc : targets R) (current_index : Z) :
  well_formed g -> 0 <= current_index -> 0 <= td_steps ->
  target_step g td_steps d acc current_index =
  Ok (mkTargets
        (target_values acc ++ [value_entry g td_steps d current_index])
        (target_rewards acc ++ [reward_entry g current_index])
        (target_policies acc ++ [policy_entry g current_index])
        (actions acc ++ [action_entry g current_index])).
Proof.
  intros Hwf Hc Ht. unfold target_step.
  rewrite step_value_ok by assumption. cbn [rbind].
  unfold value_entry, reward_entry, policy_entry, action_entry, recorded_length.
  destruct Hwf as (Hl & Ha & Hv & Hcv & Hp).
  destruct (Z.ltb_spec current_index (Py.len (root_values g))) as [Hlt | Hge].
  - unfold Py.len in Hlt.
    rewrite (index_in_range _ _ (of_int 0)) by (unfold Py.len; lia).
    rewrite (index_in_range _ _ []) by (unfold Py.len; lia).
    rewrite (index_in_range _ _ 0) by (unfold Py.len; lia).
    reflexivity.
  - rewrite uniform_policy_ok by (repeat split; assumption). reflexivity.
Qed.

Lemma target_loop_ok g (td_steps : Z) d (cis : list Z) :
  well_formed g -> 0 <= td_steps ->
  Forall (fun c => 0 <= c) cis ->
  forall acc : targets R,
    foldM (target_step g td_steps d) cis acc =
    Ok (mkTargets
          (target_values acc ++ target_values (entries g td_steps d cis))
          (target_rewards acc ++ target_rewards (entries g td_steps d cis))
          (target_policies acc ++ target_policies (entries g td_steps d cis))
          (actions acc ++ actions (entries g td_steps d cis))).
Proof.
  intros Hwf Ht Hcis. induction Hcis as [| c cis Hc Hcis IH]; intros acc.
  - cbn. rewrite !app_nil_r. destruct acc; reflexivity.
  - cbn [foldM]. rewrite target_step_ok by assumption. cbn [rbind].
    rewrite IH. cbn. rewrite <- !app_assoc. reflexivity.
Qed.

(** On a well-formed trajectory [make_target] returns, and returns the
    entries of the steps [state_index .. state_index + num_unroll_steps]. *)
Lemma make_target_ok g (state_index num_unroll_steps td_steps : Z) d :
  well_formed g -> 0 <= state_index -> 0 <= td_steps ->
  make_target g state_index num_unroll_steps td_steps d =
  Ok (entries g td_steps d
        (Py.range state_index (state_index + num_unroll_steps + 1))).
Proof.
  intros Hwf Hs Ht. unfold make_target.
  rewrite target_loop_ok; try assumption.
  - reflexivity.
  - apply Forall_forall. intros c Hc. unfold Py.range in Hc.
    apply in_map_iff in Hc. destruct Hc as (k & <- & _). lia.
Qed.

Lemma entries_nth_error g (td_steps : Z) d (s u : Z) (k : nat) :
  0 <= u -> Z.of_nat k <= u ->
  let t := entries g td_steps d (Py.range s (s + u + 1)) in
  nth_error (target_values t) k
    = Some (value_entry g td_steps d (s + Z.of_nat k)) /\
  nth_error (target_rewards t) k = Some (reward_entry g (s + Z.of_nat k)) /\
  nth_error (target_policies t) k = Some (policy_entry g (s + Z.of_nat k)) /\
  nth_error (actions t) k = Some (action_entry g (s + Z.of_nat k)).
Proof.
  intros Hu Hk. cbn.
  rewrite !nth_error_map, range_nth_error by lia.
  repeat split.
Qed.

End MakeTargetFacts.

(** ** Sums of rationals *)

Lemma fold_left_Qsum {A} (f : A -> Q) (l : list A) : forall a : Q,
  (fold_left (fun v i => v + f i) l a == a + Qsum (map f l))%Q.
Proof.
  induction l as [| x l IH]; intros a; cbn [fold_left map Qsum fold_right].
  - ring.
  - rewrite IH. fold (Qsum (map f l)). ring.
Qed.

Lemma Qsum_repeat (x : Q) (n : nat) :
  (Qsum (repeat x n) == inject_Z (Z.of_nat n) * x)%Q.
Proof.
  induction n as [| n IH].
  - cbn. ring.
  - cbn [repeat Qsum fold_right]. fold (Qsum (repeat x n)).
    rewrite IH, Nat2Z.inj_succ. unfold Z.succ. rewrite inject_Z_plus. ring.
Qed.

Lemma Qsum_uniform {Obs} (g : GameHistory Q Obs) :
  (1 <= action_space_size g)%nat -> (Qsum (uniform g) == 1)%Q.
Proof.
  intros Hn. unfold uniform. rewrite Qsum_repeat. cbn [int_div PyNum_Q].
  field. intros E. unfold Qeq in E. cbn [Qnum Qden inject_Z] in E. lia.
Qed.

(** ** The targets of [make_target] *)

Lemma three_moves_well_formed : well_formed three_moves.
Proof. unfold well_formed. cbn. repeat split; lia. Qed.

(** C1: on a well-formed trajectory, for a start index inside it and
    non-negative [td_steps] and [num_unroll_steps], [make_target] returns,
    and the value target of every step [current_index] inside the recorded
    length equals the bootstrap value ([root_values[current_index + td_steps]
    * discount ** td_steps] when that index is valid, 0 otherwise) plus the
    sum over the offsets [i] below [td_steps], clipped to the recorded
    length, of the reward at [current_index + i] times [discount ** i],
    negated exactly when the player at [current_index + i] is not the player
    at [current_index].  On the zero-sum example (rewards [1,1,1], root
    values [0,0,0,5], players [A,B,A,A], discount 1/2, [td_steps] 2, start
    index 0) the first value target is 1/2. *)
Theorem C1_value_target :
  (forall (Obs : Type) (g : GameHistory Q Obs) (s u td : Z) (d : Q),
     well_formed g ->
     0 <= s < Py.len (reward_history g) -> 0 <= u -> 0 <= td ->
     exists t,
       make_target g s u td d = Ok t /\
       forall k : nat,
         Z.of_nat k <= u -> s + Z.of_nat k < recorded_length g ->
         exists v,
           nth_error (target_values t) k = Some v /\
           (v == value_spec g (s + Z.of_nat k) td d)%Q) /\
  (forall u : Z,
     0 <= u <= 2 ->
     exists t v,
       make_target zero_sum_example 0 u 2 (1 # 2) = Ok t /\
       nth_error (target_values t) 0 = Some v /\
       (v == 1 # 2)%Q).
Proof.
  split.
  - intros Obs g s u td d Hwf Hs Hu Ht.
    eexists. split; [apply make_target_ok; try assumption; lia | ].
    intros k Hk Hin.
    destruct (entries_nth_error g td d s u k Hu Hk) as (Hv & _).
    eexists. split; [exact Hv | ].
    unfold value_entry.
    destruct (Z.ltb_spec (s + Z.of_nat k) (recorded_length g)); [ | lia].
    unfold value_at, value_spec.
    apply (fold_left_Qsum (signed_reward g (s + Z.of_nat k) d)).
  - intros u Hu.
    assert (Hcases : u = 0 \/ u = 1 \/ u = 2) by lia.
    destruct Hcases as [-> | [-> | ->]];
      eexists; eexists; (split; [vm_compute; reflexivity | ]);
      (split; [reflexivity | ]); reflexivity.
Qed.

Lemma C1_value_target_witness :
  exists t v,
    make_target three_moves 0 3 2 (1 # 2) = Ok t /\
    nth_error (target_values t) 0 = Some v /\
    (v == 3 # 2)%Q.
Proof.
  destruct (proj1 C1_value_target tensor three_moves 0 3 2 (1 # 2)
              three_moves_well_formed
              ltac:(cbn; lia) ltac:(lia) ltac:(lia))
    as (t & Hrun & Hv).
  destruct (Hv 0%nat ltac:(cbn; lia) ltac:(cbn; lia)) as (v & Hnth & Heq).
  exists t, v. split; [exact Hrun | ]. split; [exact Hnth | ].
  rewrite Heq. reflexivity.
Defined.

(** The policy of an absorbing state need not sum to 1 (counterexample to
    C6 as stated).  On a well-formed game whose visit distribution is
    empty the absorbing entry has the empty policy, whose sum is 0. *)
Lemma C6_empty_action_space :
  well_formed no_actions /\
  exists t p,
    make_target no_actions 0 1 0 1%Q = Ok t /\
    recorded_length no_actions <= 0 + 1 /\
    nth_error (target_policies t) 1 = Some p /\
    p = [] /\
    ~ (Qsum p == 1)%Q.
Proof.
  split; [unfold well_formed; cbn; repeat split; lia | ].
  eexists. eexists. split; [vm_compute; reflexivity | ].
  split; [cbn; lia | ]. split; [reflexivity | ]. split; [reflexivity | ].
  cbn. intros E. discriminate E.
Qed.

(** Nor does it in binary64 with a non-empty action space: with seven
    actions the absorbing entry holds seven times the float [1 / 7], and
    [sum] of them is below 1. *)
Lemma uniform_policy_binary64 :
  exists t p,
    make_target seven_actions 0 1 0 PrimFloat.one = Ok t /\
    nth_error (target_policies t) 1 = Some p /\
    p = repeat (PrimFloat.div PrimFloat.one (float_of_Z 7)) 7 /\
    PrimFloat.ltb (Fsum p) PrimFloat.one = true /\
    PrimFloat.eqb (Fsum p) PrimFloat.one = false.
Proof.
  eexists. eexists. split; [vm_compute; reflexivity | ].
  split; [reflexivity | ]. split; [reflexivity | ].
  split; vm_compute; reflexivity.
Qed.

(** C6, amended: on a well-formed trajectory of recorded length [L], for
    non-negative start index, [num_unroll_steps] and [td_steps],
    [make_target] returns, and every entry at a step [current_index >= L]
    has value target 0, reward target 0, the sentinel action 0 and a policy
    of length [len(child_visits[0])] whose entries all are the quotient
    [1 / len(child_visits[0])] of the number type.  Nothing is said of the
    sum of the policy. *)
Theorem C6_absorbing_entries {R Obs : Type} `{PyNum R}
    (g : GameHistory R Obs) (s u td : Z) (d : R) :
  well_formed g -> 0 <= s -> 0 <= u -> 0 <= td ->
  exists t,
    make_target g s u td d = Ok t /\
    forall k : nat,
      Z.of_nat k <= u -> recorded_length g <= s + Z.of_nat k ->
      nth_error (target_values t) k = Some (of_int 0) /\
      nth_error (target_rewards t) k = Some (of_int 0) /\
      nth_error (actions t) k = Some 0 /\
      exists p,
        nth_error (target_policies t) k = Some p /\
        length p = length (nth 0 (child_visits g) []) /\
        Forall (fun x => x = int_div 1 (Py.len (nth 0 (child_visits g) []))) p.
Proof.
  intros Hwf Hs Hu Ht.
  eexists. split; [apply make_target_ok; assumption | ].
  intros k Hk Hout.
  destruct (entries_nth_error g td d s u k Hu Hk) as (Hv & Hr & Hp & Ha).
  unfold value_entry in Hv. unfold reward_entry in Hr.
  unfold policy_entry in Hp. unfold action_entry in Ha.
  destruct (Z.ltb_spec (s + Z.of_nat k) (recorded_length g)); [lia | ].
  split; [exact Hv | ]. split; [exact Hr | ]. split; [exact Ha | ].
  exists (uniform g). split; [exact Hp | ].
  split; [apply repeat_length | ].
  apply Forall_forall. intros x Hx.
  apply repeat_spec in Hx. exact Hx.
Qed.

Lemma C6_absorbing_entries_witness :
  exists t,
    make_target three_moves 1 3 2 (1 # 2) = Ok t /\
    nth_error (target_values t) 2 = Some 0%Q /\
    nth_error (target_rewards t) 3 = Some 0%Q /\
    nth_error (actions t) 3 = Some 0 /\
    exists p,
      nth_error (target_policies t) 3 = Some p /\
      length p = 2%nat /\
      Forall (fun x => x = (1 # 2)%Q) p.
Proof.
  destruct (C6_absorbing_entries three_moves 1 3 2 (1 # 2)
              three_moves_well_formed
              ltac:(lia) ltac:(lia) ltac:(lia))
    as (t & Hrun & Habs).
  exists t. split; [exact Hrun | ].
  destruct (Habs 2%nat ltac:(cbn; lia) ltac:(cbn; lia)) as (Hv & _).
  destruct (Habs 3%nat ltac:(cbn; lia) ltac:(cbn; lia))
    as (_ & Hr & Ha & p & Hp & Hlen & Hall).
  split; [exact Hv | ]. split; [exact Hr | ]. split; [exact Ha | ].
  exists p. split; [exact Hp | ]. split; [exact Hlen | exact Hall].
Defined.

(** C7: on a well-formed trajectory, for a start index inside it and
    non-negative [num_unroll_steps] and [td_steps], [make_target] returns
    its four lists: no read of [reward_history], [to_play_history],
    [root_values], [child_visits] or [action_history] raises [IndexError].
    Every step past the recorded length yields the absorbing entry. *)
Theorem C7_no_read_out_of_bounds {R Obs : Type} `{PyNum R}
    (g : GameHistory R Obs) (s u td : Z) (d : R) :
  well_formed g ->
  0 <= s < Py.len (reward_history g) -> 0 <= u -> 0 <= td ->
  exists t,
    make_target g s u td d = Ok t /\
    (forall e, make_target g s u td d <> Raise e) /\
    forall k : nat,
      Z.of_nat k <= u -> recorded_length g <= s + Z.of_nat k ->
      nth_error (target_values t) k = Some (of_int 0) /\
      nth_error (target_rewards t) k = Some (of_int 0) /\
      nth_error (target_policies t) k = Some (uniform g) /\
      nth_error (actions t) k = Some 0.
Proof.
  intros Hwf Hs Hu Ht.
  assert (Hrun := make_target_ok g s u td d Hwf (proj1 Hs) Ht).
  eexists. split; [exact Hrun | ].
  split; [intros e; rewrite Hrun; discriminate | ].
  intros k Hk Hout.
  destruct (entries_nth_error g td d s u k Hu Hk) as (Hv & Hr & Hp & Ha).
  unfold value_entry in Hv. unfold reward_entry in Hr.
  unfold policy_entry in Hp. unfold action_entry in Ha.
  destruct (Z.ltb_spec (s + Z.of_nat k) (recorded_length g)); [lia | ].
  repeat split; assumption.
Qed.

Lemma C7_no_read_out_of_bounds_witness :
  exists t,
    make_target three_moves 2 4 5 (1 # 2) = Ok t /\
    nth_error (target_policies t) 1 = Some [1 # 2; 1 # 2]%Q.
Proof.
  destruct (C7_no_read_out_of_bounds three_moves 2 4 5 (1 # 2)
              three_moves_well_formed
              ltac:(cbn; lia) ltac:(lia) ltac:(lia))
    as (t & Hrun & _ & Habs).
  exists t. split; [exact Hrun | ].
  destruct (Habs 1%nat ltac:(cbn; lia) ltac:(cbn; lia)) as (_ & _ & Hp & _).
  exact Hp.
Defined.

(** ** The batch assembler *)

Lemma raises_only_bind {A B} (P : exn -> Prop) (r : result A)
    (k : A -> result B) :
  raises_only P r -> (forall a, raises_only P (k a)) ->
  raises_only P (rbind r k).
Proof.
  intros Hr Hk e. destruct r as [a | e']; cbn [rbind].
  - apply Hk.
  - intros [= <-]. apply Hr. reflexivity.
Qed.

Lemma raises_only_Ok {A} (P : exn -> Prop) (a : A) : raises_only P (Ok a).
Proof. intros e. discriminate. Qed.

Lemma raises_only_index {A} (l : list A) (i : Z) :
  raises_only not_batch_size (Py.index l i).
Proof.
  intros e. unfold Py.index.
  destruct (_ <? 0); [intros [= <-]; discriminate | ].
  destruct (nth_error l _); [discriminate | intros [= <-]; discriminate].
Qed.

Lemma raises_only_foldM {A B} (P : exn -> Prop) (f : B -> A -> result B)
    (l : list A) :
  (forall b x, raises_only P (f b x)) ->
  forall b, raises_only P (foldM f l b).
Proof.
  intros Hf. induction l as [| x l IH]; intros b; cbn [foldM].
  - apply raises_only_Ok.
  - apply raises_only_bind; [apply Hf | exact IH].
Qed.

Lemma raises_only_mapM {A B} (P : exn -> Prop) (f : A -> result B)
    (l : list A) :
  (forall x, raises_only P (f x)) -> raises_only P (mapM f l).
Proof.
  intros Hf. induction l as [| x l IH]; cbn [mapM].
  - apply raises_only_Ok.
  - apply raises_only_bind; [apply Hf | intros y].
    apply raises_only_bind; [exact IH | intros ys; apply raises_only_Ok].
Qed.

Create HintDb raises.
#[local] Hint Resolve raises_only_Ok raises_only_index : raises.

Section BatchFacts.

Context {R Obs : Type} `{PyNum R}.
Variable rng : nat -> nat.
Implicit Types (g : GameHistory R Obs)
  (self : ReplayBuffer R (GameHistory R Obs)) (w : world).

Lemma raises_only_make_target g (s u td : Z) (d : R) :
  raises_only not_batch_size (make_target g s u td d).
Proof.
  unfold make_target. apply raises_only_foldM. intros acc c.
  unfold target_step. apply raises_only_bind.
  - unfold step_value. apply raises_only_bind.
    + destruct (_ <? _); [ | auto with raises].
      apply raises_only_bind; auto with raises.
    + intros v. apply raises_only_foldM. intros b [i r].
      unfold add_reward.
      apply raises_only_bind; [auto with raises | intros p].
      apply raises_only_bind; auto with raises.
  - intros v. destruct (_ <? _).
    + apply raises_only_bind; [auto with raises | intros r].
      apply raises_only_bind; [auto with raises | intros p].
      apply raises_only_bind; auto with raises.
    + apply raises_only_bind; [ | auto with raises].
      unfold uniform_policy.
      apply raises_only_bind; [auto with raises | intros c'].
      apply raises_only_mapM. intros _.
      apply raises_only_bind; [auto with raises | intros c''].
      unfold true_div. intros e.
      destruct (_ =? 0); [intros [= <-]; discriminate | discriminate].
Qed.

Lemma raises_only_choice {A} (l : list A) w :
  raises_only not_batch_size (fst (choice rng l w)).
Proof.
  unfold choice. destruct l; cbn [fst]; intros e;
    [intros [= <-]; discriminate | discriminate].
Qed.

Lemma raises_only_draw_sample self (acc : batch R Obs) w :
  raises_only not_batch_size (fst (draw_sample rng self acc w)).
Proof.
  unfold draw_sample, sample_game, sample_position, bind, log, lift, ret.
  intros e.
  destruct (choice rng (buffer self) _) as [[g | e1] w1] eqn:E1.
  - destruct (choice rng (Py.range 0 _) _) as [[pos | e2] w2] eqn:E2.
    + destruct (make_target g pos _ _ _) as [t | e3] eqn:E3.
      * destruct (Py.index (observation_history g) pos) as [o | e4] eqn:E4;
          cbn [fst]; [discriminate | ].
        intros [= <-]. apply (raises_only_index _ _ _ E4).
      * cbn [fst]. intros [= <-]. apply (raises_only_make_target _ _ _ _ _ _ E3).
    + cbn [fst]. intros [= <-].
      apply (raises_only_choice (Py.range 0 (Py.len (reward_history g)))
               (mkWorld (draws w1) (trace w1 ++ [SamplePosition]))).
      rewrite E2. reflexivity.
  - cbn [fst]. intros [= <-].
    apply (raises_only_choice (buffer self)
             (mkWorld (draws w) (trace w ++ [SampleGame]))).
    rewrite E1. reflexivity.
Qed.

Lemma raises_only_draw_samples self (n : nat) :
  forall (acc : batch R Obs) w,
    raises_only not_batch_size (fst (draw_samples rng self n acc w)).
Proof.
  induction n as [| n IH]; intros acc w; cbn [draw_samples].
  - apply raises_only_Ok.
  - unfold bind.
    destruct (draw_sample rng self acc w) as [[acc' | e'] w1] eqn:E.
    + apply IH.
    + cbn [fst]. intros e [= <-].
      apply (raises_only_draw_sample self acc w). rewrite E. reflexivity.
Qed.

Lemma raises_only_extend_batch (flags : list Z) (raw : batch R Obs) :
  raises_only not_batch_size (extend_batch flags raw).
Proof.
  unfold extend_batch.
  apply raises_only_bind; [auto with raises | intros e0].
  apply raises_only_bind; [auto with raises | intros e1].
  apply raises_only_bind; auto with raises.
Qed.

(** Every sample drawn adds one entry to each of the five lists. *)
Lemma draw_samples_length self (n : nat) :
  forall (acc raw : batch R Obs) w w',
    draw_samples rng self n acc w = (Ok raw, w') ->
    length (observation_batch raw) = (length (observation_batch acc) + n)%nat /\
    length (action_batch raw) = (length (action_batch acc) + n)%nat /\
    length (value_batch raw) = (length (value_batch acc) + n)%nat /\
    length (reward_batch raw) = (length (reward_batch acc) + n)%nat /\
    length (policy_batch raw) = (length (policy_batch acc) + n)%nat.
Proof.
  induction n as [| n IH]; intros acc raw w w'; cbn [draw_samples].
  - intros [= <- <-]. repeat split; lia.
  - unfold bind at 1.
    destruct (draw_sample rng self acc w) as [[acc' | e'] w1] eqn:E;
      [ | discriminate].
    intros Hrest. apply IH in Hrest.
    unfold draw_sample, sample_game, sample_position, bind, log, lift, ret in E.
    destruct (choice rng (buffer self) _) as [[g | e1] w2]; [ | discriminate].
    destruct (choice rng (Py.range 0 _) _) as [[pos | e2] w3]; [ | discriminate].
    destruct (make_target g pos _ _ _) as [t | e3]; [ | discriminate].
    destruct (Py.index (observation_history g) pos) as [o | e4];
      [ | discriminate].
    injection E as <- <-. cbn [observation_batch action_batch value_batch
      reward_batch policy_batch] in Hrest.
    rewrite !length_app in Hrest. cbn [length] in Hrest.
    repeat split; lia.
Qed.

End BatchFacts.

(** ** The divisibility test of [get_batch] *)

Lemma sum_from (l : list Z) : forall a : Z,
  boolean_flags l -> fold_left Z.add l a = a + count_enabled l.
Proof.
  unfold boolean_flags, count_enabled, Py.len.
  induction l as [| e l IH]; intros a Hb; cbn [fold_left filter].
  - cbn. lia.
  - inversion Hb as [| ? ? He Hl]; subst.
    rewrite IH by assumption.
    destruct He as [-> | ->]; cbn [Z.eqb Pos.eqb length]; lia.
Qed.

Lemma sum_boolean (l : list Z) :
  boolean_flags l -> Py.sum l = count_enabled l.
Proof. intros Hb. unfold Py.sum. rewrite sum_from by assumption. lia. Qed.

Lemma count_enabled_nonneg (l : list Z) : 0 <= count_enabled l.
Proof. unfold count_enabled, Py.len. lia. Qed.

Section GetBatchFacts.

Context {R Obs : Type} `{PyNum R}.
Variable rng : nat -> nat.
Implicit Types (self : ReplayBuffer R (GameHistory R Obs)) (w : world).

(** [get_batch] with the test on the batch size decided. *)
Lemma get_batch_checked self (flags : list Z) w :
  boolean_flags flags ->
  get_batch rng self flags w =
  if batch_size (config self) mod (count_enabled flags + 1) =? 0
  then bind (draw_samples rng self
               (Z.to_nat (batch_size (config self) / (count_enabled flags + 1)))
               (mkBatch [] [] [] [] []))
            (fun raw => lift (extend_batch flags raw)) w
  else (Raise ValueError_batch_size, w).
Proof.
  intros Hb. unfold get_batch. rewrite sum_boolean by assumption.
  pose proof (count_enabled_nonneg flags) as Hk.
  set (k := count_enabled flags) in *.
  set (B := batch_size (config self)).
  destruct (Z.eqb_spec k 0) as [-> | Hk0].
  - unfold bind at 1. unfold lift at 1.
    replace ((0 + 1) * B =? B) with true by (symmetry; apply Z.eqb_eq; lia).
    cbn [negb]. change (0 + 1) with 1.
    rewrite Z.mod_1_r, Z.div_1_r. reflexivity.
  - unfold bind at 1. unfold lift at 1. unfold Py.floordiv.
    destruct (Z.eqb_spec (k + 1) 0); [lia | ].
    pose proof (Z_div_mod_eq_full B (k + 1)) as Hdiv.
    destruct (Z.eqb_spec (B mod (k + 1)) 0) as [Hm | Hm].
    + replace ((k + 1) * (B / (k + 1)) =? B) with true
        by (symmetry; apply Z.eqb_eq; lia).
      reflexivity.
    + replace ((k + 1) * (B / (k + 1)) =? B) with false
        by (symmetry; apply Z.eqb_neq; lia).
      reflexivity.
Qed.

(** What follows the test never raises the error of the test. *)
Lemma raises_only_after_check self (flags : list Z) (n : nat) w :
  raises_only not_batch_size
    (fst (bind (draw_samples rng self n (mkBatch [] [] [] [] []))
               (fun raw => lift (extend_batch flags raw)) w)).
Proof.
  unfold bind, lift.
  destruct (draw_samples rng self n _ w) as [[raw | e'] w1] eqn:E; cbn [fst].
  - apply raises_only_extend_batch.
  - intros e [= <-].
    apply (raises_only_draw_samples rng self n (mkBatch [] [] [] [] []) w).
    rewrite E. reflexivity.
Qed.

(** With the third flag alone the extended batch is the raw batch twice. *)
Lemma extend_batch_diagonal (raw : batch R Obs) :
  extend_batch [0; 0; 1] raw = Ok (doubled raw).
Proof.
  unfold extend_batch, doubled, Py.slice_all, Py.slice_rev.
  cbn. rewrite rev_involutive. reflexivity.
Qed.

End GetBatchFacts.

(** C8: with boolean symmetry flags, [get_batch] raises the [ValueError] of
    its batch-size test exactly when [config.batch_size] is not a multiple
    of [k + 1], [k] being the number of enabled flags; and when it raises it
    the world is as before the call: no game and no position was sampled,
    no target was built. *)
Theorem C8_batch_size_error {R Obs : Type} `{PyNum R} (rng : nat -> nat)
    (self : ReplayBuffer R (GameHistory R Obs)) (flags : list Z) (w : world) :
  boolean_flags flags ->
  (fst (get_batch rng self flags w) = Raise ValueError_batch_size <->
   batch_size (config self) mod (count_enabled flags + 1) <> 0) /\
  (fst (get_batch rng self flags w) = Raise ValueError_batch_size ->
   snd (get_batch rng self flags w) = w).
Proof.
  intros Hb. rewrite get_batch_checked by assumption.
  destruct (Z.eqb_spec (batch_size (config self) mod (count_enabled flags + 1)) 0)
    as [Hm | Hm].
  - assert (Hno : fst (bind (draw_samples rng self
                     (Z.to_nat (batch_size (config self) / (count_enabled flags + 1)))
                     (mkBatch [] [] [] [] []))
                   (fun raw => lift (extend_batch flags raw)) w)
                  <> Raise ValueError_batch_size).
    { intros E. apply (raises_only_after_check rng self flags _ w _ E).
      reflexivity. }
    split; [split | ]; intros; [contradiction | lia | contradiction].
  - cbn [fst snd]. split; [split | ]; intros; [exact Hm | reflexivity | reflexivity].
Qed.

Lemma C8_batch_size_error_witness :
  fst (get_batch paired_draws one_game_buffer_3 [1; 0; 0] fresh)
    = Raise ValueError_batch_size /\
  snd (get_batch paired_draws one_game_buffer_3 [1; 0; 0] fresh) = fresh.
Proof.
  destruct (C8_batch_size_error paired_draws one_game_buffer_3 [1; 0; 0] fresh
              ltac:(repeat constructor; lia))
    as (Hiff & Hworld).
  assert (Hraise : fst (get_batch paired_draws one_game_buffer_3 [1; 0; 0] fresh)
                   = Raise ValueError_batch_size)
    by (apply Hiff; cbn; lia).
  split; [exact Hraise | exact (Hworld Hraise)].
Defined.

(** C10: with the third symmetry flag alone, every batch [get_batch]
    returns is the raw batch drawn by the sampling loop followed by an
    unchanged copy of it, in each of the five lists: entry [n + i] equals
    entry [i], [n] being the number of samples drawn. *)
Theorem C10_diagonal_flag_duplicates {R Obs : Type} `{PyNum R}
    (rng : nat -> nat) (self : ReplayBuffer R (GameHistory R Obs))
    (w w' : world) (b : batch R Obs) :
  get_batch rng self [0; 0; 1] w = (Ok b, w') ->
  exists raw : batch R Obs,
    draw_samples rng self (Z.to_nat (batch_size (config self) / 2))
                 (mkBatch [] [] [] [] []) w = (Ok raw, w') /\
    b = doubled raw /\
    observation_batch b = observation_batch raw ++ observation_batch raw /\
    forall i : nat,
      (i < Z.to_nat (batch_size (config self) / 2))%nat ->
      let n := Z.to_nat (batch_size (config self) / 2) in
      nth_error (observation_batch b) (n + i) = nth_error (observation_batch b) i /\
      nth_error (action_batch b) (n + i) = nth_error (action_batch b) i /\
      nth_error (value_batch b) (n + i) = nth_error (value_batch b) i /\
      nth_error (reward_batch b) (n + i) = nth_error (reward_batch b) i /\
      nth_error (policy_batch b) (n + i) = nth_error (policy_batch b) i.
Proof.
  intros Hrun.
  rewrite get_batch_checked in Hrun by (repeat constructor; lia).
  change (count_enabled [0; 0; 1] + 1) with 2 in Hrun.
  destruct (batch_size (config self) mod 2 =? 0); [ | discriminate].
  unfold bind, lift in Hrun.
  destruct (draw_samples rng self _ _ w) as [[raw | e] w1] eqn:E;
    [ | discriminate].
  rewrite extend_batch_diagonal in Hrun. injection Hrun as <- <-.
  exists raw. split; [reflexivity | ]. split; [reflexivity | ].
  split; [reflexivity | ].
  intros i Hi n.
  destruct (draw_samples_length rng self _ _ _ _ _ E)
    as (Ho & Ha & Hv & Hr & Hp).
  cbn [length Nat.add observation_batch action_batch value_batch
       reward_batch policy_batch] in Ho, Ha, Hv, Hr, Hp.
  fold n in Ho, Ha, Hv, Hr, Hp.
  cbn [doubled observation_batch action_batch value_batch reward_batch
       policy_batch].
  repeat split.
  - rewrite nth_error_app2, nth_error_app1 by lia. f_equal. lia.
  - rewrite nth_error_app2, nth_error_app1 by lia. f_equal. lia.
  - rewrite nth_error_app2, nth_error_app1 by lia. f_equal. lia.
  - rewrite nth_error_app2, nth_error_app1 by lia. f_equal. lia.
  - rewrite nth_error_app2, nth_error_app1 by lia. f_equal. lia.
Qed.

Lemma C10_diagonal_flag_duplicates_witness :
  exists (b raw : batch Q tensor) (w' : world),
    get_batch paired_draws one_game_buffer [0; 0; 1] fresh = (Ok b, w') /\
    b = doubled raw /\
    observation_batch b =
      [ [[[1; 2]; [3; 4]]]; [[[5; 6]; [7; 8]]];
        [[[1; 2]; [3; 4]]]; [[[5; 6]; [7; 8]]] ].
Proof.
  destruct (get_batch paired_draws one_game_buffer [0; 0; 1] fresh)
    as [[b | e] w'] eqn:E.
  - destruct (C10_diagonal_flag_duplicates paired_draws one_game_buffer
                fresh w' b E) as (raw & _ & Hb & _).
    exists b, raw, w'. split; [reflexivity | ]. split; [exact Hb | ].
    vm_compute in E. injection E as <- _. reflexivity.
  - vm_compute in E. discriminate E.
Defined.

(** C2: the observations appended for an enabled symmetry flag are not
    flipped.  With one sample drawn and any single flag enabled, the
    appended observation is the sampled observation itself, which differs
    from each of its flips. *)
Theorem C2_observations_not_flipped :
  let o : tensor := [[[1; 2]; [3; 4]]] in
  (exists b w',
     get_batch paired_draws one_game_buffer_2 [1; 0; 0] fresh = (Ok b, w') /\
     observation_batch b = [o; o]) /\
  (exists b w',
     get_batch paired_draws one_game_buffer_2 [0; 1; 0] fresh = (Ok b, w') /\
     observation_batch b = [o; o]) /\
  (exists b w',
     get_batch paired_draws one_game_buffer_2 [0; 0; 1] fresh = (Ok b, w') /\
     observation_batch b = [o; o]) /\
  flip_rows o <> o /\ flip_columns o <> o /\ flip_both o <> o.
Proof.
  cbv zeta.
  split; [ | split; [ | split]];
    try (eexists; eexists; split; [vm_compute; reflexivity | reflexivity]).
  repeat split; discriminate.
Qed.

(** C3: the five lists of an augmented batch are not aligned.  With the
    first flag enabled and two different samples drawn, the appended
    observations come in reverse order while the labels are appended in
    the drawing order: entry 2 holds the observation of sample 1 with the
    actions, values, rewards and policies of sample 0. *)
Theorem C3_labels_misaligned :
  exists b w',
    get_batch paired_draws two_game_buffer [1; 0; 0] fresh = (Ok b, w') /\
    nth_error (observation_batch b) 2 = nth_error (observation_batch b) 1 /\
    nth_error (observation_batch b) 2 <> nth_error (observation_batch b) 0 /\
    nth_error (action_batch b) 2 = nth_error (action_batch b) 0 /\
    nth_error (action_batch b) 2 <> nth_error (action_batch b) 1 /\
    nth_error (value_batch b) 2 = nth_error (value_batch b) 0 /\
    nth_error (value_batch b) 2 <> nth_error (value_batch b) 1 /\
    nth_error (reward_batch b) 2 = nth_error (reward_batch b) 0 /\
    nth_error (reward_batch b) 2 <> nth_error (reward_batch b) 1 /\
    nth_error (policy_batch b) 2 = nth_error (policy_batch b) 0 /\
    nth_error (policy_batch b) 2 <> nth_error (policy_batch b) 1.
Proof.
  eexists. eexists. split; [vm_compute; reflexivity | ].
  cbn. repeat split; (reflexivity || discriminate).
Qed.

(** * Further properties *)

(** ** [make_target]: lengths, recorded entries, exceptions *)

Lemma foldM_app {A B} (f : B -> A -> result B) (l1 l2 : list A) (b : B) :
  foldM f (l1 ++ l2) b = rbind (foldM f l1 b) (foldM f l2).
Proof.
  revert b. induction l1 as [| x l1 IH]; intros b; cbn [app foldM rbind].
  - reflexivity.
  - destruct (f b x) as [b' | e]; cbn [rbind]; [apply IH | reflexivity].
Qed.

Lemma index_raises_IndexError {A} (l : list A) (i : Z) :
  raises_only is_IndexError (Py.index l i).
Proof.
  intros e. unfold Py.index, is_IndexError.
  destruct (_ <? 0); [intros [= <-]; reflexivity | ].
  destruct (nth_error l _); [discriminate | intros [= <-]; reflexivity].
Qed.

Lemma raises_only_mapM_in {A B} (P : exn -> Prop) (f : A -> result B)
    (l : list A) :
  (forall x, In x l -> raises_only P (f x)) -> raises_only P (mapM f l).
Proof.
  induction l as [| x l IH]; intros Hf; cbn [mapM].
  - apply raises_only_Ok.
  - apply raises_only_bind; [apply Hf; left; reflexivity | intros y].
    apply raises_only_bind; [ | intros ys; apply raises_only_Ok].
    apply IH. intros x' Hx'. apply Hf. right. exact Hx'.
Qed.

Section MakeTargetFurther.

Context {R Obs : Type} `{PyNum R}.
Implicit Types (g : GameHistory R Obs) (d : R).

Lemma target_step_lengths g (td : Z) d (acc acc' : targets R) (c : Z) :
  target_step g td d acc c = Ok acc' ->
  length (target_values acc') = S (length (target_values acc)) /\
  length (target_rewards acc') = S (length (target_rewards acc)) /\
  length (target_policies acc') = S (length (target_policies acc)) /\
  length (actions acc') = S (length (actions acc)).
Proof.
  unfold target_step.
  destruct (step_value g c td d) as [v | e]; cbn [rbind]; [ | discriminate].
  destruct (c <? Py.len (root_values g)).
  - destruct (Py.index (reward_history g) c); cbn [rbind]; [ | discriminate].
    destruct (Py.index (child_visits g) c); cbn [rbind]; [ | discriminate].
    destruct (Py.index (action_history g) c); cbn [rbind]; [ | discriminate].
    intros [= <-]. cbn. rewrite !length_app. cbn. repeat split; lia.
  - destruct (uniform_policy g); cbn [rbind]; [ | discriminate].
    intros [= <-]. cbn. rewrite !length_app. cbn. repeat split; lia.
Qed.

Lemma target_loop_lengths g (td : Z) d (cis : list Z) :
  forall acc t : targets R,
    foldM (target_step g td d) cis acc = Ok t ->
    length (target_values t) = (length (target_values acc) + length cis)%nat /\
    length (target_rewards t) = (length (target_rewards acc) + length cis)%nat /\
    length (target_policies t) = (length (target_policies acc) + length cis)%nat /\
    length (actions t) = (length (actions acc) + length cis)%nat.
Proof.
  induction cis as [| c cis IH]; intros acc t; cbn [foldM length].
  - intros [= <-]. repeat split; lia.
  - destruct (target_step g td d acc c) as [acc' | e] eqn:E; cbn [rbind];
      [ | discriminate].
    intros Hrest. apply IH in Hrest. apply target_step_lengths in E.
    repeat split; lia.
Qed.

(** Whatever the trajectory, when [make_target] returns, each of its four
    lists has [num_unroll_steps + 1] entries (none when that is negative). *)
Theorem make_target_length g (s u td : Z) d (t : targets R) :
  make_target g s u td d = Ok t ->
  length (target_values t) = Z.to_nat (u + 1) /\
  length (target_rewards t) = Z.to_nat (u + 1) /\
  length (target_policies t) = Z.to_nat (u + 1) /\
  length (actions t) = Z.to_nat (u + 1).
Proof.
  unfold make_target. intros Hrun. apply target_loop_lengths in Hrun.
  rewrite range_length in Hrun. cbn [length target_values target_rewards
    target_policies actions Nat.add] in Hrun.
  replace (s + u + 1 - s) with (u + 1) in Hrun by lia. exact Hrun.
Qed.

(** On a well-formed trajectory the reward, policy and action targets of a
    step inside the recorded length are the recorded reward, visit
    distribution and action of that step. *)
Theorem make_target_recorded_entries g (s u td : Z) d (k : nat) :
  well_formed g -> 0 <= s -> 0 <= u -> 0 <= td ->
  Z.of_nat k <= u -> s + Z.of_nat k < recorded_length g ->
  exists t,
    make_target g s u td d = Ok t /\
    nth_error (target_rewards t) k
      = nth_error (reward_history g) (Z.to_nat s + k) /\
    nth_error (target_policies t) k
      = nth_error (child_visits g) (Z.to_nat s + k) /\
    nth_error (actions t) k
      = nth_error (action_history g) (Z.to_nat s + k).
Proof.
  intros Hwf Hs Hu Ht Hk Hin.
  eexists. split; [apply make_target_ok; assumption | ].
  destruct (entries_nth_error g td d s u k Hu Hk) as (_ & Hr & Hp & Ha).
  rewrite Hr, Hp, Ha.
  unfold reward_entry, policy_entry, action_entry.
  destruct (Z.ltb_spec (s + Z.of_nat k) (recorded_length g)); [ | lia].
  destruct Hwf as (Hl & Hal & Hvl & Hcl & Hpl).
  unfold recorded_length, Py.len in Hin.
  replace (Z.to_nat (s + Z.of_nat k)) with (Z.to_nat s + k)%nat by lia.
  repeat split; symmetry; apply nth_error_nth'; lia.
Qed.

Lemma uniform_policy_raises g :
  raises_only is_IndexError (uniform_policy g).
Proof.
  unfold uniform_policy.
  destruct (Py.index (child_visits g) 0) as [c | e] eqn:E; cbn [rbind].
  - apply raises_only_mapM_in. intros x Hx. cbn [rbind].
    unfold true_div.
    destruct (Z.eqb_spec (Py.len c) 0) as [Hz | Hz];
      [ | apply raises_only_Ok].
    unfold Py.range in Hx. rewrite Hz in Hx. destruct Hx.
  - intros e' [= <-]. apply (index_raises_IndexError _ _ _ E).
Qed.

Lemma make_target_raises_IndexError g (s u td : Z) d (e : exn) :
  make_target g s u td d = Raise e -> e = IndexError.
Proof.
  revert e. change (raises_only is_IndexError (make_target g s u td d)).
  unfold make_target. apply raises_only_foldM. intros acc c.
  unfold target_step. apply raises_only_bind.
  - unfold step_value. apply raises_only_bind.
    + destruct (_ <? _); [ | apply raises_only_Ok].
      apply raises_only_bind;
        [apply index_raises_IndexError | intros; apply raises_only_Ok].
    + intros v. apply raises_only_foldM. intros b [i r].
      unfold add_reward.
      apply raises_only_bind; [apply index_raises_IndexError | intros p].
      apply raises_only_bind;
        [apply index_raises_IndexError | intros; apply raises_only_Ok].
  - intros v. destruct (_ <? _).
    + apply raises_only_bind; [apply index_raises_IndexError | intros r].
      apply raises_only_bind; [apply index_raises_IndexError | intros p].
      apply raises_only_bind;
        [apply index_raises_IndexError | intros; apply raises_only_Ok].
    + apply raises_only_bind;
        [apply uniform_policy_raises | intros; apply raises_only_Ok].
Qed.

End MakeTargetFurther.


Lemma index_past_end {A} (l : list A) (i : Z) :
  Py.len l <= i -> Py.index l i = Raise IndexError.
Proof.
  unfold Py.index, Py.len. intros Hi.
  destruct (Z.ltb_spec i 0); [lia | ].
  destruct (Z.ltb_spec i 0); [lia | ].
  destruct (nth_error l (Z.to_nat i)) eqn:E; [ | reflexivity].
  assert (Z.to_nat i < length l)%nat
    by (apply nth_error_Some; rewrite E; discriminate).
  lia.
Qed.

Lemma index_map {A B} (f : A -> B) (l : list A) (i : Z) :
  Py.index (map f l) i = rbind (Py.index l i) (fun x => Ok (f x)).
Proof.
  unfold Py.index, Py.len. rewrite length_map.
  destruct (_ <? 0); [reflexivity | ].
  rewrite nth_error_map. destruct (nth_error l _); reflexivity.
Qed.

Lemma foldM_ext {A B} (f f' : B -> A -> result B) (l : list A) :
  (forall b x, f b x = f' b x) -> forall b, foldM f l b = foldM f' l b.
Proof.
  intros Hf. induction l as [| x l IH]; intros b; cbn [foldM].
  - reflexivity.
  - rewrite Hf. destruct (f' b x); cbn [rbind]; [apply IH | reflexivity].
Qed.

Lemma range_first (s u : Z) :
  0 <= u -> exists rest, Py.range s (s + u + 1) = s :: rest.
Proof.
  intros Hu. unfold Py.range.
  replace (Z.to_nat (s + u + 1 - s)) with (S (Z.to_nat u)) by lia.
  cbn [seq map]. eexists. f_equal. lia.
Qed.

Section MakeTargetErrors.

Context {R Obs : Type} `{PyNum R}.
Implicit Types (g : GameHistory R Obs) (d : R).

Lemma first_step_raises g (s u td : Z) d :
  0 <= u ->
  (forall acc v, target_step g td d acc s <> Ok v) ->
  make_target g s u td d = Raise IndexError.
Proof.
  intros Hu Hstep.
  destruct (make_target g s u td d) as [t | e] eqn:E.
  - exfalso. unfold make_target in E.
    destruct (range_first s u Hu) as (rest & Hr). rewrite Hr in E.
    cbn [foldM] in E.
    destruct (target_step g td d (mkTargets [] [] [] []) s) as [acc' | e']
      eqn:E1; [ | discriminate E].
    exact (Hstep _ _ E1).
  - f_equal. exact (make_target_raises_IndexError g s u td d e E).
Qed.

(** A trajectory whose rewards, visit distributions or actions stop before
    its root values makes [make_target] raise [IndexError] as soon as the
    start index lies in between. *)
Lemma ragged_trajectory_raises g (s u td : Z) d :
  0 <= s < Py.len (root_values g) -> 0 <= u ->
  Py.len (reward_history g) <= s \/
  Py.len (child_visits g) <= s \/
  Py.len (action_history g) <= s ->
  make_target g s u td d = Raise IndexError.
Proof.
  intros Hs Hu Hshort. apply first_step_raises; [exact Hu | ].
  intros acc v. unfold target_step.
  destruct (step_value g s td d); cbn [rbind]; [ | discriminate].
  destruct (Z.ltb_spec s (Py.len (root_values g))); [ | lia].
  destruct Hshort as [Hr | [Hc | Ha]].
  - rewrite (index_past_end (reward_history g)) by exact Hr. discriminate.
  - destruct (Py.index (reward_history g) s); cbn [rbind]; [ | discriminate].
    rewrite (index_past_end (child_visits g)) by exact Hc. discriminate.
  - destruct (Py.index (reward_history g) s); cbn [rbind]; [ | discriminate].
    destruct (Py.index (child_visits g) s); cbn [rbind]; [ | discriminate].
    rewrite (index_past_end (action_history g)) by exact Ha. discriminate.
Qed.

(** Without any visit distribution there is no action space to read: a
    start index at or past the end of the root values, as on the empty
    trajectory, makes [make_target] raise [IndexError]. *)
Lemma no_visits_raises g (s u td : Z) d :
  child_visits g = [] -> Py.len (root_values g) <= s -> 0 <= u ->
  make_target g s u td d = Raise IndexError.
Proof.
  intros Hcv Hs Hu. apply first_step_raises; [exact Hu | ].
  intros acc v. unfold target_step.
  destruct (step_value g s td d); cbn [rbind]; [ | discriminate].
  destruct (Z.ltb_spec s (Py.len (root_values g))); [lia | ].
  unfold uniform_policy. rewrite Hcv. cbn. discriminate.
Qed.

(** The targets depend on the players only through who equals whom:
    renaming the players by an injective map changes nothing. *)
Theorem make_target_relabel (f : Z -> Z) g (s u td : Z) d :
  (forall p q, f p = f q -> p = q) ->
  make_target (relabel f g) s u td d = make_target g s u td d.
Proof.
  intros Hinj. unfold make_target. apply foldM_ext. intros acc c.
  unfold target_step.
  assert (Hv : step_value (relabel f g) c td d = step_value g c td d).
  { unfold step_value. cbn [relabel root_values reward_history].
    destruct (if c + td <? Py.len (root_values g)
              then _ else _) as [v | e]; cbn [rbind]; [ | reflexivity].
    apply foldM_ext. intros b [i r]. unfold add_reward.
    cbn [relabel to_play_history]. rewrite !index_map.
    destruct (Py.index (to_play_history g) c) as [p | e]; cbn [rbind];
      [ | reflexivity].
    destruct (Py.index (to_play_history g) (c + i)) as [q | e]; cbn [rbind];
      [ | reflexivity].
    destruct (Z.eqb_spec p q) as [-> | Hpq].
    - rewrite Z.eqb_refl. reflexivity.
    - destruct (Z.eqb_spec (f p) (f q)) as [Hf | _]; [ | reflexivity].
      elim Hpq. apply Hinj. exact Hf. }
  rewrite Hv. reflexivity.
Qed.

(** The targets of a step do not depend on where the unrolling started:
    entry [k] of the targets built from [s] is the single entry of the
    targets built from [s + k] with no unrolling. *)
Theorem make_target_shift g (s u td : Z) d (k : nat) :
  well_formed g -> 0 <= s -> 0 <= u -> 0 <= td -> Z.of_nat k <= u ->
  exists t t0,
    make_target g s u td d = Ok t /\
    make_target g (s + Z.of_nat k) 0 td d = Ok t0 /\
    target_values t0 = firstn 1 (skipn k (target_values t)) /\
    target_rewards t0 = firstn 1 (skipn k (target_rewards t)) /\
    target_policies t0 = firstn 1 (skipn k (target_policies t)) /\
    actions t0 = firstn 1 (skipn k (actions t)).
Proof.
  intros Hwf Hs Hu Ht Hk.
  eexists. eexists.
  split; [apply make_target_ok; assumption | ].
  split; [apply make_target_ok; try assumption; lia | ].
  destruct (entries_nth_error g td d s u k Hu Hk) as (Hv & Hr & Hp & Ha).
  assert (Hone : forall (A : Type) (l : list A) (x : A),
             nth_error l k = Some x -> firstn 1 (skipn k l) = [x]).
  { intros A l x Hx. apply nth_error_split in Hx.
    destruct Hx as (l1 & l2 & -> & <-).
    rewrite skipn_app, skipn_all, Nat.sub_diag. reflexivity. }
  rewrite (Hone _ _ _ Hv), (Hone _ _ _ Hr), (Hone _ _ _ Hp), (Hone _ _ _ Ha).
  unfold entries, Py.range.
  replace (Z.to_nat (s + Z.of_nat k + 0 + 1 - (s + Z.of_nat k))) with 1%nat
    by lia.
  cbn [seq map target_values target_rewards target_policies actions].
  replace (s + Z.of_nat k + Z.of_nat 0) with (s + Z.of_nat k) by lia.
  repeat split.
Qed.

End MakeTargetErrors.

(** For a non-negative [td_steps] and a discount in (0, 1]: a trajectory
    whose rewards, visit distributions or actions stop before its root
    values makes [make_target] raise [IndexError] as soon as the start
    index lies in between. *)
Theorem make_target_ragged_trajectory {Obs : Type} (g : GameHistory Q Obs)
    (s u td : Z) (d : Q) :
  0 <= td -> unit_discount d ->
  0 <= s < Py.len (root_values g) -> 0 <= u ->
  Py.len (reward_history g) <= s \/
  Py.len (child_visits g) <= s \/
  Py.len (action_history g) <= s ->
  make_target g s u td d = Raise IndexError.
Proof.
  intros _ _. apply ragged_trajectory_raises.
Qed.

(** For a non-negative [td_steps] and a discount in (0, 1]: without any
    visit distribution there is no action space to read, and a start index
    at or past the end of the root values, as on the empty trajectory,
    makes [make_target] raise [IndexError]. *)
Theorem make_target_no_visits {Obs : Type} (g : GameHistory Q Obs)
    (s u td : Z) (d : Q) :
  0 <= td -> unit_discount d ->
  child_visits g = [] -> Py.len (root_values g) <= s -> 0 <= u ->
  make_target g s u td d = Raise IndexError.
Proof.
  intros _ _. apply no_visits_raises.
Qed.

Lemma make_target_ragged_trajectory_witness :
  make_target zero_sum_example 3 0 2 (1 # 2) = Raise IndexError.
Proof.
  apply (make_target_ragged_trajectory zero_sum_example 3 0 2 (1 # 2)).
  - lia.
  - split; reflexivity || discriminate.
  - cbn. lia.
  - lia.
  - left. cbn. lia.
Defined.

Lemma make_target_no_visits_witness :
  make_target (mkGameHistory (@nil tensor) [] [] [] [] (@nil Q)) 0 1 2 (1 # 2)
  = Raise IndexError.
Proof.
  apply (make_target_no_visits
           (mkGameHistory (@nil tensor) [] [] [] [] (@nil Q)) 0 1 2 (1 # 2)).
  - lia.
  - split; reflexivity || discriminate.
  - reflexivity.
  - cbn. lia.
  - lia.
Defined.

Lemma make_target_relabel_witness :
  make_target (relabel (fun p => 7 - p) three_moves) 0 3 2 (1 # 2)
  = make_target three_moves 0 3 2 (1 # 2).
Proof.
  apply (make_target_relabel (fun p => 7 - p) three_moves 0 3 2 (1 # 2)).
  intros p q Hpq. lia.
Defined.

Lemma make_target_shift_witness :
  exists t t0,
    make_target three_moves 0 3 2 (1 # 2) = Ok t /\
    make_target three_moves 2 0 2 (1 # 2) = Ok t0 /\
    target_values t0 = firstn 1 (skipn 2 (target_values t)).
Proof.
  destruct (make_target_shift three_moves 0 3 2 (1 # 2) 2
              three_moves_well_formed
              ltac:(lia) ltac:(lia) ltac:(lia) ltac:(cbn; lia))
    as (t & t0 & Hrun & Hrun0 & Hv & _).
  exists t, t0. split; [exact Hrun | ]. split; [exact Hrun0 | exact Hv].
Defined.

(** In a game where one player makes every move no reward changes sign:
    the value target inside the recorded length is the bootstrap value plus
    the plain discounted sum of the rewards up to the horizon. *)
Theorem value_target_single_player {Obs : Type} (g : GameHistory Q Obs)
    (s u td : Z) (d : Q) (k : nat) (p : Z) :
  well_formed g -> Forall (fun q => q = p) (to_play_history g) ->
  0 <= s -> 0 <= u -> 0 <= td ->
  Z.of_nat k <= u -> s + Z.of_nat k < recorded_length g ->
  exists t v,
    make_target g s u td d = Ok t /\
    nth_error (target_values t) k = Some v /\
    (v == bootstrap g (s + Z.of_nat k) td d
          + Qsum (map (plain_reward g (s + Z.of_nat k) d)
                      (seq 0 (horizon g (s + Z.of_nat k) td))))%Q.
Proof.
  intros Hwf Hplay Hs Hu Ht Hk Hin.
  eexists. eexists. split; [apply make_target_ok; assumption | ].
  destruct (entries_nth_error g td d s u k Hu Hk) as (Hv & _).
  split; [exact Hv | ].
  unfold value_entry.
  destruct (Z.ltb_spec (s + Z.of_nat k) (recorded_length g)); [ | lia].
  unfold value_at.
  rewrite (fold_left_Qsum (signed_reward g (s + Z.of_nat k) d)).
  rewrite (map_ext_in (signed_reward g (s + Z.of_nat k) d)
                      (plain_reward g (s + Z.of_nat k) d));
    [reflexivity | ].
  intros i Hi. apply in_seq in Hi. unfold horizon in Hi.
  destruct Hwf as (_ & _ & _ & _ & Hpl).
  unfold signed_reward, plain_reward.
  pose proof (proj1 (Forall_nth _ _) Hplay) as Hnth.
  rewrite (Hnth (Z.to_nat (s + Z.of_nat k)) 0) by lia.
  rewrite (Hnth (Z.to_nat (s + Z.of_nat k) + i)%nat 0) by lia.
  rewrite Z.eqb_refl. reflexivity.
Qed.

Lemma value_target_single_player_witness :
  exists t v,
    make_target (relabel (fun _ => 0) three_moves) 0 3 2 (1 # 2) = Ok t /\
    nth_error (target_values t) 0 = Some v /\
    (v == 7 # 2)%Q.
Proof.
  destruct (value_target_single_player
              (relabel (fun _ => 0) three_moves) 0 3 2 (1 # 2) 0 0
              ltac:(unfold well_formed; cbn; repeat split; lia)
              ltac:(repeat constructor)
              ltac:(lia) ltac:(lia) ltac:(lia)
              ltac:(cbn; lia) ltac:(cbn; lia))
    as (t & v & Hrun & Hnth & Heq).
  exists t, v. split; [exact Hrun | ]. split; [exact Hnth | ].
  rewrite Heq. reflexivity.
Defined.

(** ** The window store: when [save_game] raises *)

(** [save_game] raises exactly when the buffer is empty and the window size
    is negative, and what it raises then is the [IndexError] of popping from
    an empty list. *)
Theorem save_game_raises_iff {R game : Type} (self : ReplayBuffer R game)
    (g : game) :
  ((exists e, save_game self g = Raise e) <->
   buffer self = [] /\ window_size (config self) < 0) /\
  (forall e, save_game self g = Raise e -> e = IndexError).
Proof.
  unfold save_game, Py.len.
  destruct (Z.gtb_spec (Z.of_nat (length (buffer self)))
              (window_size (config self))) as [Hgt | Hle].
  - destruct (buffer self) as [| x t]; cbn [Py.pop0 rbind length] in *.
    + split; [split | ].
      * intros _. split; [reflexivity | lia].
      * intros _. eexists. reflexivity.
      * intros e [= <-]. reflexivity.
    + split; [split | ].
      * intros (e & He). discriminate He.
      * intros (Hb & _). discriminate Hb.
      * intros e He. discriminate He.
  - cbn [rbind]. split; [split | ].
    + intros (e & He). discriminate He.
    + intros (Hb & Hw). rewrite Hb in Hle. cbn [length] in Hle. lia.
    + intros e He. discriminate He.
Qed.

Lemma save_game_raises_iff_witness :
  save_game (@init Q nat (mkConfig (-1) 2 0 0 1%Q)) 5%nat = Raise IndexError.
Proof.
  destruct (save_game_raises_iff (@init Q nat (mkConfig (-1) 2 0 0 1%Q)) 5%nat)
    as (Hiff & Honly).
  destruct (proj2 Hiff ltac:(split; [reflexivity | cbn; lia])) as (e & He).
  rewrite He. f_equal. exact (Honly e He).
Defined.

(** ** The sampler *)

Section SamplerFacts.

Context {R Obs : Type} `{PyNum R}.
Variable rng : nat -> nat.
Implicit Types (g : GameHistory R Obs) (w : world).

Lemma choice_cons {A} (a : A) (l : list A) w :
  choice rng (a :: l) w =
  (Ok (nth (Nat.modulo (rng (draws w)) (length (a :: l))) (a :: l) a),
   mkWorld (S (draws w)) (trace w)).
Proof. reflexivity. Qed.

Lemma choice_inv {A} (l : list A) w (x : A) w' :
  choice rng l w = (Ok x, w') ->
  In x l /\ w' = mkWorld (S (draws w)) (trace w).
Proof.
  destruct l as [| a l]; [discriminate | ].
  rewrite choice_cons. intros Heq.
  assert (Hlt : (Nat.modulo (rng (draws w)) (length (a :: l))
                 < length (a :: l))%nat)
    by (apply Nat.mod_upper_bound; discriminate).
  remember (a :: l) as l0 eqn:El0.
  remember (Nat.modulo (rng (draws w)) (length l0)) as n eqn:En.
  injection Heq as <- <-.
  split; [apply nth_In; exact Hlt | reflexivity].
Qed.

Lemma choice_nonempty {A} (l : list A) w :
  l <> [] ->
  exists x, In x l /\ choice rng l w = (Ok x, mkWorld (S (draws w)) (trace w)).
Proof.
  intros Hl. destruct l as [| a l']; [contradiction | ].
  exists (nth (Nat.modulo (rng (draws w)) (length (a :: l'))) (a :: l') a).
  split; [ | apply choice_cons].
  apply nth_In. apply Nat.mod_upper_bound. discriminate.
Qed.

Lemma sample_game_cases (buffer : list (GameHistory R Obs)) w :
  (buffer = [] ->
   sample_game rng buffer w =
     (Raise ValueError_empty_choice,
      mkWorld (draws w) (trace w ++ [SampleGame]))) /\
  (buffer <> [] ->
   exists g,
     In g buffer /\
     sample_game rng buffer w =
       (Ok g, mkWorld (S (draws w)) (trace w ++ [SampleGame]))).
Proof.
  split.
  - intros ->. reflexivity.
  - intros Hb. unfold sample_game, bind, log.
    destruct (choice_nonempty buffer
                (mkWorld (draws w) (trace w ++ [SampleGame])) Hb)
      as (g & Hin & Hc).
    exists g. split; [exact Hin | ]. rewrite Hc. reflexivity.
Qed.

(** [sample_game] raises on an empty buffer without consuming a draw; on a
    buffer that holds games it consumes one draw and returns one of them. *)
Theorem sample_game_member (buffer : list (GameHistory R Obs)) w :
  (buffer = [] ->
   sample_game rng buffer w =
     (Raise ValueError_empty_choice,
      mkWorld (draws w) (trace w ++ [SampleGame]))) /\
  (buffer <> [] ->
   exists g,
     In g buffer /\
     sample_game rng buffer w =
       (Ok g, mkWorld (S (draws w)) (trace w ++ [SampleGame]))).
Proof. exact (sample_game_cases buffer w). Qed.

Lemma range_in (n pos : Z) : In pos (Py.range 0 n) -> 0 <= pos < n.
Proof.
  unfold Py.range. intros Hin. apply in_map_iff in Hin.
  destruct Hin as (k & <- & Hk). apply in_seq in Hk. lia.
Qed.

Lemma sample_position_cases g w :
  (reward_history g = [] ->
   sample_position rng g w =
     (Raise ValueError_empty_choice,
      mkWorld (draws w) (trace w ++ [SamplePosition]))) /\
  (reward_history g <> [] ->
   exists pos,
     0 <= pos < Py.len (reward_history g) /\
     sample_position rng g w =
       (Ok pos, mkWorld (S (draws w)) (trace w ++ [SamplePosition]))).
Proof.
  split.
  - intros Hr. unfold sample_position. rewrite Hr. reflexivity.
  - intros Hr. unfold sample_position, bind, log.
    assert (Hne : Py.range 0 (Py.len (reward_history g)) <> []).
    { destruct (reward_history g) as [| r l]; [contradiction | ].
      destruct (range_first 0 (Py.len l) ltac:(unfold Py.len; lia))
        as (rest & Hrest).
      replace (Py.len (r :: l)) with (0 + Py.len l + 1)
        by (unfold Py.len; cbn [length]; lia).
      rewrite Hrest. discriminate. }
    destruct (choice_nonempty _
                (mkWorld (draws w) (trace w ++ [SamplePosition])) Hne)
      as (pos & Hin & Hc).
    exists pos. split; [apply range_in; exact Hin | ].
    rewrite Hc. reflexivity.
Qed.

(** [sample_position] raises on a trajectory without rewards; otherwise it
    consumes one draw and returns a position that has a reward, so never
    the position of the final observation. *)
Theorem sample_position_in_range g w :
  (reward_history g = [] ->
   sample_position rng g w =
     (Raise ValueError_empty_choice,
      mkWorld (draws w) (trace w ++ [SamplePosition]))) /\
  (reward_history g <> [] ->
   exists pos,
     0 <= pos < Py.len (reward_history g) /\
     sample_position rng g w =
       (Ok pos, mkWorld (S (draws w)) (trace w ++ [SamplePosition]))).
Proof. exact (sample_position_cases g w). Qed.

End SamplerFacts.

Lemma sample_game_member_witness :
  exists g,
    In g [first_game; second_game] /\
    fst (sample_game paired_draws [first_game; second_game] fresh) = Ok g.
Proof.
  destruct (proj2 (sample_game_member paired_draws
                     [first_game; second_game] fresh)
              ltac:(discriminate))
    as (g & Hin & Hrun).
  exists g. split; [exact Hin | ]. rewrite Hrun. reflexivity.
Defined.

Lemma sample_position_in_range_witness :
  exists pos,
    0 <= pos < 3 /\
    fst (sample_position paired_draws three_moves fresh) = Ok pos.
Proof.
  destruct (proj2 (sample_position_in_range paired_draws three_moves fresh)
              ltac:(discriminate))
    as (pos & Hpos & Hrun).
  exists pos. split; [exact Hpos | ]. rewrite Hrun. reflexivity.
Defined.

(** ** The sampling loop of [get_batch] *)

Section SamplingLoop.

Context {R Obs : Type} `{PyNum R}.
Variable rng : nat -> nat.
Implicit Types (g : GameHistory R Obs)
  (self : ReplayBuffer R (GameHistory R Obs)) (w : world).

Lemma draw_sample_inv self (acc acc' : batch R Obs) w w' :
  draw_sample rng self acc w = (Ok acc', w') ->
  exists o a v r p,
    drawn_from self o a v r p /\
    acc' = batch_app acc (mkBatch [o] [a] [v] [r] [p]) /\
    w' = mkWorld (2 + draws w)
                 (trace w ++ [SampleGame; SamplePosition; MakeTarget]).
Proof.
  unfold draw_sample, sample_game, sample_position, bind, log, lift, ret.
  destruct (choice rng (buffer self) _) as [[g | e1] w1] eqn:E1;
    [ | discriminate].
  destruct (choice rng (Py.range 0 _) _) as [[pos | e2] w2] eqn:E2;
    [ | discriminate].
  destruct (make_target g pos _ _ _) as [t | e3] eqn:E3; [ | discriminate].
  destruct (Py.index (observation_history g) pos) as [o | e4] eqn:E4;
    [ | discriminate].
  intros [= <- <-].
  apply choice_inv in E1. destruct E1 as (Hg & ->).
  apply choice_inv in E2. destruct E2 as (Hpos & ->).
  apply range_in in Hpos.
  exists o, (actions t), (target_values t), (target_rewards t),
         (target_policies t).
  split; [ | split].
  - exists g, pos, t. repeat split; try assumption; lia.
  - reflexivity.
  - cbn [draws trace]. rewrite <- !app_assoc. reflexivity.
Qed.

Lemma sample_at_head self (o : Obs) a v r p (b : batch R Obs) :
  drawn_from self o a v r p ->
  sample_at self (batch_app (mkBatch [o] [a] [v] [r] [p]) b) 0.
Proof.
  intros Hd. exists o, a, v, r, p. repeat split. exact Hd.
Qed.

Lemma sample_at_tail self (o : Obs) a v r p (b : batch R Obs) (i : nat) :
  sample_at self b i ->
  sample_at self (batch_app (mkBatch [o] [a] [v] [r] [p]) b) (S i).
Proof. intros Hs. exact Hs. Qed.

Lemma batch_app_assoc (b1 b2 b3 : batch R Obs) :
  batch_app (batch_app b1 b2) b3 = batch_app b1 (batch_app b2 b3).
Proof. unfold batch_app. cbn. rewrite <- !app_assoc. reflexivity. Qed.

(** What the loop adds to the batch: [n] samples, at the cost of two draws
    and three calls each. *)
Lemma draw_samples_inv self (n : nat) :
  forall (acc raw : batch R Obs) w w',
    draw_samples rng self n acc w = (Ok raw, w') ->
    exists new : batch R Obs,
      raw = batch_app acc new /\
      batch_of_length new n /\
      (forall i, (i < n)%nat -> sample_at self new i) /\
      w' = mkWorld (2 * n + draws w) (trace w ++ sampling_trace n).
Proof.
  induction n as [| n IH]; intros acc raw w w'; cbn [draw_samples].
  - intros [= <- <-]. exists (mkBatch [] [] [] [] []).
    split; [unfold batch_app; cbn; rewrite !app_nil_r; destruct acc;
            reflexivity | ].
    split; [repeat split | ]. split; [intros i Hi; lia | ].
    unfold sampling_trace. cbn. rewrite app_nil_r. destruct w; reflexivity.
  - unfold bind at 1.
    destruct (draw_sample rng self acc w) as [[acc1 | e] w1] eqn:E;
      [ | discriminate].
    intros Hrest.
    apply draw_sample_inv in E.
    destruct E as (o & a & v & r & p & Hd & -> & ->).
    apply IH in Hrest.
    destruct Hrest as (new & -> & Hlen & Hrows & ->).
    exists (batch_app (mkBatch [o] [a] [v] [r] [p]) new).
    split; [apply batch_app_assoc | ].
    split; [ | split].
    + destruct Hlen as (H1 & H2 & H3 & H4 & H5).
      unfold batch_of_length. cbn. repeat split; lia.
    + intros [| i] Hi.
      * apply sample_at_head. exact Hd.
      * apply sample_at_tail. apply Hrows. lia.
    + cbn [draws trace]. unfold sampling_trace. cbn [repeat concat].
      rewrite <- !app_assoc. f_equal. lia.
Qed.

(** The samples can be drawn whenever the buffer holds a game and every
    game it holds can be sampled at every position. *)
Lemma draw_samples_ok self (n : nat) :
  buffer self <> [] -> Forall playable (buffer self) ->
  0 <= td_steps (config self) ->
  forall (acc : batch R Obs) w,
    exists raw w', draw_samples rng self n acc w = (Ok raw, w').
Proof.
  intros Hne Hplay Htd.
  induction n as [| n IH]; intros acc w; cbn [draw_samples].
  - eexists. eexists. reflexivity.
  - assert (Hstep : exists acc1 w1, draw_sample rng self acc w = (Ok acc1, w1)).
    { unfold draw_sample. unfold bind at 1.
      destruct (proj2 (sample_game_cases rng (buffer self) w) Hne)
        as (g & Hg & ->).
      pose proof (proj1 (Forall_forall _ _) Hplay g Hg) as (Hwf & Hobs).
      assert (Hr : reward_history g <> []).
      { destruct Hwf as (Hl & _). destruct (reward_history g);
          [cbn in Hl; lia | discriminate]. }
      unfold bind at 1.
      destruct (proj2 (sample_position_cases rng g
                         (mkWorld (S (draws w)) (trace w ++ [SampleGame])))
                      Hr)
        as (pos & Hpos & ->).
      unfold bind, log, lift, ret.
      rewrite make_target_ok by (try assumption; lia).
      unfold Py.len in Hpos.
      destruct (observation_history g) as [| o0 obs] eqn:Eo;
        [cbn [length] in Hobs; lia | ].
      rewrite (index_in_range _ _ o0) by (unfold Py.len; lia).
      eexists. eexists. reflexivity. }
    destruct Hstep as (acc1 & w1 & Hstep). unfold bind. rewrite Hstep.
    apply IH.
Qed.

End SamplingLoop.

(** ** The symmetries of [get_batch] *)

Lemma copies_snoc {A} (k : nat) (l : list A) :
  copies k l ++ l = l ++ copies k l.
Proof.
  unfold copies. induction k as [| k IH]; cbn [repeat concat].
  - rewrite app_nil_r. reflexivity.
  - rewrite <- app_assoc, IH. reflexivity.
Qed.

Lemma iter_copies {A} (k : nat) (l : list A) :
  Nat.iter k (fun ext => ext ++ l) l = copies (S k) l.
Proof.
  induction k as [| k IH]; cbn [Nat.iter nat_rect].
  - unfold copies. cbn. rewrite app_nil_r. reflexivity.
  - change (Nat.iter k (fun ext => ext ++ l) l ++ l = copies (S (S k)) l).
    rewrite IH, copies_snoc. reflexivity.
Qed.

Lemma length_copies {A} (k : nat) (l : list A) :
  length (copies k l) = (k * length l)%nat.
Proof.
  unfold copies. induction k as [| k IH]; cbn [repeat concat].
  - reflexivity.
  - rewrite length_app, IH. lia.
Qed.

Lemma boolean_three (e0 e1 e2 : bool) :
  boolean_flags [flag e0; flag e1; flag e2].
Proof.
  unfold boolean_flags.
  repeat apply Forall_cons; try apply Forall_nil;
    [destruct e0 | destruct e1 | destruct e2]; cbn [flag]; lia.
Qed.

Lemma count_enabled_three (e0 e1 e2 : bool) :
  count_enabled [flag e0; flag e1; flag e2]
  = Z.of_nat (Nat.b2n e0 + Nat.b2n e1 + Nat.b2n e2).
Proof. destruct e0, e1, e2; reflexivity. Qed.

Section Symmetries.

Context {R Obs : Type} `{PyNum R}.
Variable rng : nat -> nat.
Implicit Types (self : ReplayBuffer R (GameHistory R Obs)) (w : world)
  (raw b : batch R Obs).

Lemma extend_batch_three (e0 e1 e2 : bool) raw :
  extend_batch [flag e0; flag e1; flag e2] raw = Ok (extended e0 e1 e2 raw).
Proof.
  assert (Hk : Z.to_nat (Py.sum [flag e0; flag e1; flag e2])
               = (Nat.b2n e0 + Nat.b2n e1 + Nat.b2n e2)%nat).
  { rewrite sum_boolean by apply boolean_three.
    rewrite count_enabled_three. apply Nat2Z.id. }
  unfold extend_batch, extended, Py.slice_all, Py.slice_rev.
  rewrite !iter_copies, Hk.
  change (Py.index [flag e0; flag e1; flag e2] 0) with (Ok (flag e0)).
  change (Py.index [flag e0; flag e1; flag e2] 1) with (Ok (flag e1)).
  change (Py.index [flag e0; flag e1; flag e2] 2) with (Ok (flag e2)).
  cbn [rbind]. f_equal. f_equal.
  destruct e0, e1, e2; cbn [flag Z.eqb Pos.eqb];
    rewrite ?rev_involutive, ?app_nil_r, <- ?app_assoc; reflexivity.
Qed.

Lemma extend_batch_prefix (flags : list Z) raw b :
  extend_batch flags raw = Ok b -> exists more, b = batch_app raw more.
Proof.
  unfold extend_batch, Py.slice_all, Py.slice_rev.
  destruct (Py.index flags 0) as [e0 | ]; cbn [rbind]; [ | discriminate].
  destruct (Py.index flags 1) as [e1 | ]; cbn [rbind]; [ | discriminate].
  destruct (Py.index flags 2) as [e2 | ]; cbn [rbind]; [ | discriminate].
  intros [= <-]. rewrite !iter_copies.
  set (k := Z.to_nat (Py.sum flags)).
  exists (mkBatch
            ((if e0 =? 1 then rev (observation_batch raw) else [])
             ++ (if e1 =? 1 then rev (observation_batch raw) else [])
             ++ (if e2 =? 1 then rev (rev (observation_batch raw)) else []))
            (copies k (action_batch raw)) (copies k (value_batch raw))
            (copies k (reward_batch raw)) (copies k (policy_batch raw))).
  unfold batch_app. cbn [observation_batch action_batch value_batch
    reward_batch policy_batch]. f_equal.
  destruct (e0 =? 1), (e1 =? 1), (e2 =? 1);
    rewrite ?app_nil_r, <- ?app_assoc; reflexivity.
Qed.

Lemma get_batch_three_flags_eq self (e0 e1 e2 : bool) w :
  batch_size (config self)
    mod (Z.of_nat (Nat.b2n e0 + Nat.b2n e1 + Nat.b2n e2) + 1) = 0 ->
  get_batch rng self [flag e0; flag e1; flag e2] w =
  match draw_samples rng self
          (Z.to_nat (batch_size (config self)
                     / (Z.of_nat (Nat.b2n e0 + Nat.b2n e1 + Nat.b2n e2) + 1)))
          (mkBatch [] [] [] [] []) w
  with
  | (Ok raw, w') => (Ok (extended e0 e1 e2 raw), w')
  | (Raise e, w') => (Raise e, w')
  end.
Proof.
  intros Hdiv.
  rewrite get_batch_checked by apply boolean_three.
  rewrite count_enabled_three, Hdiv. cbn [Z.eqb].
  unfold bind, lift.
  destruct (draw_samples rng self _ _ w) as [[raw | e] w1]; [ | reflexivity].
  rewrite extend_batch_three. reflexivity.
Qed.

(** [get_batch] under three boolean flags whose count divides the batch
    size: the samples are drawn, then the observations are followed by
    their list reversed for each of the first two flags and repeated for
    the third, and the labels are repeated once per enabled flag; an
    exception of the sampling loop is passed on. *)
Theorem get_batch_three_flags self (e0 e1 e2 : bool) w :
  batch_size (config self)
    mod (Z.of_nat (Nat.b2n e0 + Nat.b2n e1 + Nat.b2n e2) + 1) = 0 ->
  get_batch rng self [flag e0; flag e1; flag e2] w =
  match draw_samples rng self
          (Z.to_nat (batch_size (config self)
                     / (Z.of_nat (Nat.b2n e0 + Nat.b2n e1 + Nat.b2n e2) + 1)))
          (mkBatch [] [] [] [] []) w
  with
  | (Ok raw, w') => (Ok (extended e0 e1 e2 raw), w')
  | (Raise e, w') => (Raise e, w')
  end.
Proof. exact (get_batch_three_flags_eq self e0 e1 e2 w). Qed.

(** The first two flags are interchangeable: [get_batch] returns the same
    batch, in the same world, for [[1,0,0]] and for [[0,1,0]]. *)
Theorem get_batch_horizontal_is_vertical self w :
  get_batch rng self [1; 0; 0] w = get_batch rng self [0; 1; 0] w.
Proof.
  unfold get_batch. change (Py.sum [1; 0; 0]) with 1.
  change (Py.sum [0; 1; 0]) with 1. unfold bind at 1 3.
  destruct (lift _ w) as [[n | e] w1]; [ | reflexivity].
  destruct (negb _); [reflexivity | ].
  unfold bind, lift.
  destruct (draw_samples rng self _ _ w1) as [[raw | e] w2]; reflexivity.
Qed.

(** With no flag enabled [get_batch] is its sampling loop run
    [batch_size] times: the batch is the raw batch and no batch size is
    refused. *)
Theorem get_batch_no_symmetry self w :
  get_batch rng self [0; 0; 0] w =
  draw_samples rng self (Z.to_nat (batch_size (config self)))
               (mkBatch [] [] [] [] []) w.
Proof.
  change [0; 0; 0] with [flag false; flag false; flag false].
  rewrite (get_batch_three_flags_eq self false false false w)
    by (cbn; apply Z.mod_1_r).
  cbn [Nat.b2n Nat.add Z.of_nat Z.add]. rewrite Z.div_1_r.
  destruct (draw_samples rng self _ _ w) as [[raw | e] w1]; [ | reflexivity].
  unfold extended, copies. cbn. rewrite !app_nil_r. destruct raw; reflexivity.
Qed.

End Symmetries.

Lemma get_batch_three_flags_witness :
  exists raw w',
    draw_samples paired_draws one_game_buffer_3 1 (mkBatch [] [] [] [] []) fresh
      = (Ok raw, w') /\
    get_batch paired_draws one_game_buffer_3 [1; 1; 0] fresh
      = (Ok (extended true true false raw), w').
Proof.
  pose proof (get_batch_three_flags paired_draws one_game_buffer_3
                true true false fresh ltac:(reflexivity)) as Hrun.
  change [flag true; flag true; flag false] with [1; 1; 0] in Hrun.
  change (Z.to_nat _) with 1%nat in Hrun.
  destruct (draw_samples paired_draws one_game_buffer_3 1 _ fresh)
    as [[raw | e] w'] eqn:E.
  - exists raw, w'. split; [reflexivity | exact Hrun].
  - vm_compute in E. discriminate E.
Defined.

(** ** Batches [get_batch] returns *)

Section ReturnedBatches.

Context {R Obs : Type} `{PyNum R}.
Variable rng : nat -> nat.
Implicit Types (self : ReplayBuffer R (GameHistory R Obs)) (w : world)
  (raw b : batch R Obs).

Lemma get_batch_inv self (flags : list Z) w b w' :
  boolean_flags flags ->
  get_batch rng self flags w = (Ok b, w') ->
  batch_size (config self) mod (count_enabled flags + 1) = 0 /\
  exists raw,
    draw_samples rng self
      (Z.to_nat (batch_size (config self) / (count_enabled flags + 1)))
      (mkBatch [] [] [] [] []) w = (Ok raw, w') /\
    extend_batch flags raw = Ok b.
Proof.
  intros Hb Hrun. rewrite get_batch_checked in Hrun by assumption.
  destruct (Z.eqb_spec (batch_size (config self) mod (count_enabled flags + 1)) 0)
    as [Hm | Hm]; [ | discriminate].
  split; [exact Hm | ].
  unfold bind, lift in Hrun.
  destruct (draw_samples rng self _ _ w) as [[raw | e] w1]; [ | discriminate].
  destruct (extend_batch flags raw) as [b' | e] eqn:E; [ | discriminate].
  injection Hrun as <- <-. exists raw. split; [reflexivity | exact E].
Qed.

(** Under three boolean flags every list of a returned batch has
    [batch_size] entries (none for a negative batch size). *)
Theorem get_batch_length self (e0 e1 e2 : bool) w b w' :
  get_batch rng self [flag e0; flag e1; flag e2] w = (Ok b, w') ->
  batch_of_length b (Z.to_nat (batch_size (config self))).
Proof.
  intros Hrun.
  destruct (get_batch_inv self _ w b w' (boolean_three e0 e1 e2) Hrun)
    as (Hdiv & raw & Hdraw & Hext).
  rewrite extend_batch_three in Hext. injection Hext as <-.
  apply draw_samples_inv in Hdraw.
  destruct Hdraw as (new & -> & (H1 & H2 & H3 & H4 & H5) & _).
  rewrite count_enabled_three in *.
  set (B := batch_size (config self)) in *.
  set (k := (Nat.b2n e0 + Nat.b2n e1 + Nat.b2n e2)%nat) in *.
  pose proof (Z_div_mod_eq_full B (Z.of_nat k + 1)) as HB.
  set (q := B / (Z.of_nat k + 1)) in *.
  assert (Hn : Z.to_nat B = (S k * Z.to_nat q)%nat) by nia.
  unfold batch_of_length, extended. fold k.
  cbn [batch_app observation_batch action_batch value_batch reward_batch
       policy_batch app].
  rewrite !length_copies, H2, H3, H4, H5, Hn.
  split; [ | repeat split; reflexivity].
  subst k.
  destruct e0, e1, e2; cbn [Nat.b2n Nat.add];
    rewrite ?length_app, ?length_rev; cbn [length]; lia.
Qed.

(** Whatever the boolean flags, the first [n] entries of a returned batch
    are aligned: entry [i] of the five lists is the observation of one game
    of the buffer at a position that has a reward, with the targets
    [make_target] builds there. *)
Theorem get_batch_raw_entries_aligned self (flags : list Z) w b w' (i : nat) :
  boolean_flags flags ->
  get_batch rng self flags w = (Ok b, w') ->
  (i < Z.to_nat (batch_size (config self) / (count_enabled flags + 1)))%nat ->
  sample_at self b i.
Proof.
  intros Hb Hrun Hi.
  destruct (get_batch_inv self flags w b w' Hb Hrun)
    as (_ & raw & Hdraw & Hext).
  apply draw_samples_inv in Hdraw.
  destruct Hdraw as (new & -> & (H1 & H2 & H3 & H4 & H5) & Hrows & _).
  apply extend_batch_prefix in Hext. destruct Hext as (more & ->).
  destruct (Hrows i Hi) as (o & a & v & r & p & Ho & Ha & Hv & Hr & Hp & Hd).
  exists o, a, v, r, p.
  cbn [batch_app observation_batch action_batch value_batch reward_batch
       policy_batch app].
  rewrite !nth_error_app1 by lia.
  repeat split; assumption.
Qed.

(** A successful call consumes two draws for each sample and calls the
    sampler twice and the target builder once for each, in that order. *)
Theorem get_batch_world self (flags : list Z) w b w' :
  boolean_flags flags ->
  get_batch rng self flags w = (Ok b, w') ->
  let n := Z.to_nat (batch_size (config self) / (count_enabled flags + 1)) in
  w' = mkWorld (2 * n + draws w) (trace w ++ sampling_trace n).
Proof.
  intros Hb Hrun n.
  destruct (get_batch_inv self flags w b w' Hb Hrun)
    as (_ & raw & Hdraw & _).
  apply draw_samples_inv in Hdraw.
  destruct Hdraw as (new & _ & _ & _ & ->). reflexivity.
Qed.

(** Every observation of a batch returned under three boolean flags, the
    appended ones included, is an observation some game of the buffer
    records at a position that has a reward. *)
Theorem get_batch_observations_recorded self (e0 e1 e2 : bool) w b w' (o : Obs) :
  get_batch rng self [flag e0; flag e1; flag e2] w = (Ok b, w') ->
  In o (observation_batch b) ->
  exists g pos,
    In g (buffer self) /\
    0 <= pos < Py.len (reward_history g) /\
    Py.index (observation_history g) pos = Ok o.
Proof.
  intros Hrun Hin.
  destruct (get_batch_inv self _ w b w' (boolean_three e0 e1 e2) Hrun)
    as (_ & raw & Hdraw & Hext).
  rewrite extend_batch_three in Hext. injection Hext as <-.
  apply draw_samples_inv in Hdraw.
  destruct Hdraw as (new & -> & (H1 & _) & Hrows & _).
  cbn [extended batch_app observation_batch app] in Hin.
  assert (Hraw : In o (observation_batch new)).
  { repeat (apply in_app_or in Hin; destruct Hin as [Hin | Hin]);
      try exact Hin.
    - destruct e0; [apply in_rev; exact Hin | destruct Hin].
    - destruct e1; [apply in_rev; exact Hin | destruct Hin].
    - destruct e2; [exact Hin | destruct Hin]. }
  apply In_nth_error in Hraw. destruct Hraw as (i & Hi).
  assert (Hlt : (i < length (observation_batch new))%nat)
    by (apply nth_error_Some; rewrite Hi; discriminate).
  rewrite H1 in Hlt.
  destruct (Hrows i Hlt) as (o' & a & v & r & p & Ho & _ & _ & _ & _ & Hd).
  rewrite Hi in Ho. injection Ho as <-.
  destruct Hd as (g & pos & t & Hg & Hpos & _ & Hobs & _).
  exists g, pos. repeat split; try assumption; lia.
Qed.

(** On an empty buffer a call that has a sample to draw raises the error of
    [numpy.random.choice], after one call of the sampler and no draw. *)
Theorem get_batch_empty_buffer self (flags : list Z) w :
  boolean_flags flags ->
  buffer self = [] ->
  batch_size (config self) mod (count_enabled flags + 1) = 0 ->
  0 < batch_size (config self) ->
  get_batch rng self flags w =
    (Raise ValueError_empty_choice,
     mkWorld (draws w) (trace w ++ [SampleGame])).
Proof.
  intros Hb Hempty Hdiv Hpos.
  rewrite get_batch_checked by assumption. rewrite Hdiv. cbn [Z.eqb].
  pose proof (count_enabled_nonneg flags) as Hk.
  pose proof (Z_div_mod_eq_full (batch_size (config self))
                (count_enabled flags + 1)) as HB.
  assert (Hq : 0 < batch_size (config self) / (count_enabled flags + 1))
    by nia.
  destruct (Z.to_nat (batch_size (config self) / (count_enabled flags + 1)))
    as [| n] eqn:En; [lia | ].
  unfold bind at 1. cbn [draw_samples]. unfold bind at 1.
  unfold draw_sample. unfold bind at 1.
  rewrite (proj1 (sample_game_cases rng (buffer self) w) Hempty).
  reflexivity.
Qed.

(** With three boolean flags whose count divides the batch size, a buffer
    that holds at least one game, all of them well formed with an
    observation for each step, and a non-negative [td_steps], [get_batch]
    returns a batch. *)
Lemma get_batch_returns self (e0 e1 e2 : bool) w :
  buffer self <> [] -> Forall playable (buffer self) ->
  0 <= td_steps (config self) ->
  batch_size (config self)
    mod (Z.of_nat (Nat.b2n e0 + Nat.b2n e1 + Nat.b2n e2) + 1) = 0 ->
  exists b w', get_batch rng self [flag e0; flag e1; flag e2] w = (Ok b, w').
Proof.
  intros Hne Hplay Htd Hdiv.
  rewrite get_batch_three_flags_eq by exact Hdiv.
  destruct (draw_samples_ok rng self
              (Z.to_nat (batch_size (config self)
                 / (Z.of_nat (Nat.b2n e0 + Nat.b2n e1 + Nat.b2n e2) + 1)))
              Hne Hplay Htd (mkBatch [] [] [] [] []) w)
    as (raw & w' & ->).
  eexists. eexists. reflexivity.
Qed.

(** Sampling after saving: on a store filled by [save_game] from empty,
    [sample_game] returns one of the last [window_size + 1] games saved,
    never an evicted one. *)
Theorem sample_game_after_saves (cfg : Config R)
    (gs : list (GameHistory R Obs)) w :
  0 <= window_size cfg -> gs <> [] ->
  exists self g w',
    save_games (init cfg) gs = Ok self /\
    sample_game rng (buffer self) w = (Ok g, w') /\
    In g (skipn (length gs - S (Z.to_nat (window_size cfg))) gs).
Proof.
  intros Hw Hgs.
  destruct (save_games_window gs (init cfg)) as (self & Hrun & _ & Hbuf);
    cbn [init config buffer]; unfold Py.len; cbn [length]; try lia.
  cbn [init config buffer app] in Hbuf.
  assert (Hne : buffer self <> []).
  { rewrite Hbuf. intros E.
    assert (Hl : length (skipn (length gs - S (Z.to_nat (window_size cfg))) gs)
                 = 0%nat) by (rewrite E; reflexivity).
    rewrite length_skipn in Hl.
    destruct gs; [contradiction | cbn [length] in Hl; lia]. }
  destruct (proj2 (sample_game_cases rng (buffer self) w) Hne)
    as (g & Hin & Hs).
  exists self, g. eexists. split; [exact Hrun | ]. split; [exact Hs | ].
  rewrite <- Hbuf. exact Hin.
Qed.

End ReturnedBatches.

(** With three boolean flags whose count divides the batch size, a buffer
    that holds at least one game, all of them well formed with an
    observation for each step, a non-negative [td_steps] and a discount in
    (0, 1], [get_batch] returns a batch. *)
Theorem get_batch_succeeds {Obs : Type} (rng : nat -> nat)
    (self : ReplayBuffer Q (GameHistory Q Obs)) (e0 e1 e2 : bool)
    (w : world) :
  buffer self <> [] -> Forall playable (buffer self) ->
  0 <= td_steps (config self) -> unit_discount (discount (config self)) ->
  batch_size (config self)
    mod (Z.of_nat (Nat.b2n e0 + Nat.b2n e1 + Nat.b2n e2) + 1) = 0 ->
  exists b w', get_batch rng self [flag e0; flag e1; flag e2] w = (Ok b, w').
Proof.
  intros Hne Hplay Htd _ Hdiv.
  exact (get_batch_returns rng self e0 e1 e2 w Hne Hplay Htd Hdiv).
Qed.

Lemma make_target_length_witness :
  exists t,
    make_target three_moves 1 3 2 (1 # 2) = Ok t /\
    length (target_values t) = 4%nat /\ length (actions t) = 4%nat.
Proof.
  destruct (make_target three_moves 1 3 2 (1 # 2)) as [t | e] eqn:E.
  - destruct (make_target_length three_moves 1 3 2 (1 # 2) t E)
      as (Hv & _ & _ & Ha).
    exists t. split; [reflexivity | ]. split; [exact Hv | exact Ha].
  - vm_compute in E. discriminate E.
Defined.

Lemma make_target_recorded_entries_witness :
  exists t,
    make_target three_moves 0 3 2 (1 # 2) = Ok t /\
    nth_error (target_rewards t) 1 = Some 2%Q /\
    nth_error (actions t) 1 = Some 0.
Proof.
  destruct (make_target_recorded_entries three_moves 0 3 2 (1 # 2) 1
              three_moves_well_formed
              ltac:(lia) ltac:(lia) ltac:(lia) ltac:(cbn; lia) ltac:(cbn; lia))
    as (t & Hrun & Hr & _ & Ha).
  exists t. split; [exact Hrun | ]. split; [exact Hr | exact Ha].
Defined.


Lemma three_moves_playable : Forall playable (buffer one_game_buffer).
Proof.
  apply Forall_cons; [ | apply Forall_nil].
  split; [exact three_moves_well_formed | cbn; lia].
Qed.

Lemma get_batch_length_witness :
  exists b w',
    get_batch paired_draws one_game_buffer [1; 0; 0] fresh = (Ok b, w') /\
    batch_of_length b 4.
Proof.
  destruct (get_batch paired_draws one_game_buffer [1; 0; 0] fresh)
    as [[b | e] w'] eqn:E.
  - exists b, w'. split; [reflexivity | ].
    exact (get_batch_length paired_draws one_game_buffer true false false
             fresh b w' E).
  - vm_compute in E. discriminate E.
Defined.

Lemma get_batch_raw_entries_aligned_witness :
  exists b w',
    get_batch paired_draws one_game_buffer [1; 0; 0] fresh = (Ok b, w') /\
    sample_at one_game_buffer b 1.
Proof.
  destruct (get_batch paired_draws one_game_buffer [1; 0; 0] fresh)
    as [[b | e] w'] eqn:E.
  - exists b, w'. split; [reflexivity | ].
    apply (get_batch_raw_entries_aligned paired_draws one_game_buffer
             [1; 0; 0] fresh b w' 1).
    + repeat apply Forall_cons; try apply Forall_nil; lia.
    + exact E.
    + cbn. lia.
  - vm_compute in E. discriminate E.
Defined.

Lemma get_batch_world_witness :
  exists b,
    get_batch paired_draws one_game_buffer [1; 0; 0] fresh
    = (Ok b, mkWorld 4 [SampleGame; SamplePosition; MakeTarget;
                        SampleGame; SamplePosition; MakeTarget]).
Proof.
  destruct (get_batch paired_draws one_game_buffer [1; 0; 0] fresh)
    as [[b | e] w'] eqn:E.
  - exists b.
    rewrite (get_batch_world paired_draws one_game_buffer [1; 0; 0] fresh b w'
               ltac:(repeat apply Forall_cons; try apply Forall_nil; lia) E).
    reflexivity.
  - vm_compute in E. discriminate E.
Defined.

Lemma get_batch_observations_recorded_witness :
  exists g pos,
    In g (buffer one_game_buffer_2) /\
    0 <= pos < Py.len (reward_history g) /\
    Py.index (observation_history g) pos = Ok [[[1; 2]; [3; 4]]].
Proof.
  destruct (get_batch paired_draws one_game_buffer_2 [1; 0; 0] fresh)
    as [[b | e] w'] eqn:E.
  - apply (get_batch_observations_recorded paired_draws one_game_buffer_2
             true false false fresh b w' [[[1; 2]; [3; 4]]] E).
    vm_compute in E. injection E as <- _. right. left. reflexivity.
  - vm_compute in E. discriminate E.
Defined.

Lemma get_batch_empty_buffer_witness :
  get_batch paired_draws no_games [0; 0; 1] fresh
  = (Raise ValueError_empty_choice, mkWorld 0 [SampleGame]).
Proof.
  apply (get_batch_empty_buffer paired_draws no_games [0; 0; 1] fresh).
  - repeat apply Forall_cons; try apply Forall_nil; lia.
  - reflexivity.
  - reflexivity.
  - cbn. lia.
Defined.

Lemma get_batch_succeeds_witness :
  exists b w',
    get_batch paired_draws one_game_buffer [1; 0; 0] fresh = (Ok b, w').
Proof.
  apply (get_batch_succeeds paired_draws one_game_buffer true false false fresh).
  - discriminate.
  - exact three_moves_playable.
  - cbn. lia.
  - split; reflexivity || discriminate.
  - reflexivity.
Defined.

Lemma sample_game_after_saves_witness :
  exists self g w',
    save_games (init window_one) [first_game; second_game; three_moves]
      = Ok self /\
    sample_game paired_draws (buffer self) fresh = (Ok g, w') /\
    In g [second_game; three_moves].
Proof.
  apply (sample_game_after_saves paired_draws window_one
           [first_game; second_game; three_moves] fresh).
  - cbn. lia.
  - discriminate.
Defined.
